(** * sedac_gpw_parser.plot: the map renderer [Plot]

    A shallow embedding of [src/sedac_gpw_parser/plot.py].

    Conventions of the embedding.
    - Python floats are read as exact rationals ([Q]); nothing here speaks
      about rounding, NaN or infinities.  Python's [/] on floats raises
      [ZeroDivisionError] on a zero divisor, and that is kept.
    - [str] values are [string]s; the only character the code inspects is
      the ASCII separator ["/"].
    - Everything the module reaches outside itself (the file system, the
      [Population] loader, [numpy.percentile], the colormap registry and the
      plotting calls of matplotlib/cartopy) is collected in a record [Env]
      of oracles.  The calls that act on the outside world, those of the
      file system, of the loader and of the plotting libraries, are the
      constructors of [call]; each is logged, in program order, in the
      [trace] of the [World], and one the oracle rejects raises after being
      logged, so that the statements after it are not executed.  The two
      look-ups that only return a value, [cm.get_cmap] and
      [numpy.percentile], and [set_under] on the ramp just looked up, are
      not logged: the trace says nothing about them. *)

From Stdlib Require Import ZArith QArith Lqa Lia List String Ascii Bool.
From Stdlib Require Import DecimalString DecimalZ DecimalPos Qround.
Import ListNotations.

Set Implicit Arguments.

Local Open Scope string_scope.
Local Open Scope Q_scope.

(** ** Python primitives used by the module *)

Module Py.

(** [s[-1]]: the last character, [None] standing for [IndexError]. *)
Fixpoint last_char (s : string) : option ascii :=
  match s with
  | EmptyString => None
  | String c EmptyString => Some c
  | String _ rest => last_char rest
  end.

(** [str(n)] for an [int]. *)
Definition str (n : Z) : string :=
  NilZero.string_of_int (Z.to_int n).

(** Conversion of an [int] operand in mixed [int]/[float] arithmetic. *)
Definition float_of_nat (n : nat) : Q := inject_Z (Z.of_nat n).

End Py.

(** ** Data model *)

(** A two-dimensional numpy array: its [shape] and its cells in row-major
    order. *)
Record ndarray : Type := mk_ndarray {
  n_row : nat;
  n_col : nat;
  cells : list Q
}.

Definition shape (a : ndarray) : nat * nat := (n_row a, n_col a).

Definition wf_ndarray (a : ndarray) : Prop :=
  List.length (cells a) = (n_row a * n_col a)%nat.

(** The attributes that [Population.__init__] leaves on the object. *)
Record Population : Type := mk_Population {
  _population : ndarray;
  _llcrnrlon : Q;
  _llcrnrlat : Q;
  _cellsize : Q
}.

(** [(ll_x, ur_x, ll_y, ur_y)] *)
Definition Extent : Type := (Q * Q * Q * Q)%type.

(** A matplotlib colormap, as far as this module touches it: the ramp it was
    looked up under and the colour set by [set_under]. *)
Record Colormap : Type := mk_Colormap {
  cm_name : string;
  cm_under : option string
}.

Definition set_under (c : Colormap) (colour : string) : Colormap :=
  {| cm_name := cm_name c; cm_under := Some colour |}.

(** The attributes of a [Plot] instance. *)
Record Plot : Type := mk_Plot {
  base : Population;
  _country_id : Z;
  plot_folder : string;
  _output_path : string;
  _img_extent : Extent;
  _cmap : Colormap
}.

(** [Bbox] returned by [Axes.get_position]. *)
Record Bbox : Type := mk_Bbox {
  x0 : Q;
  y0 : Q;
  width : Q;
  height : Q
}.

(** Calls that leave the module, with the arguments the module computes. *)
Inductive call : Type :=
| OsPathExists (path : string)
| OsMkdir (path : string)
| PopulationInit (country_id : Z)
| PltFigure (figsize : Q * Q)
| PltAxes
| PltSubplotsAdjust (right left bottom top : Q)
| NaturalEarthFeature (category name scale : string)
| AddFeature (zorder : Z) (linewidth : Q)
| Coastlines (resolution : string) (linewidth : Q) (zorder : Z)
| SetExtent (extent : Extent)
| Imshow (data : ndarray) (vmin vmax : Q) (extent : Extent) (cmap : Colormap)
| GetPosition
| FigAddAxes (rect : Q * Q * Q * Q)
| PltColorbar (extend : string) (shrink : Q)
| SetLabel (label : string) (size : Z)
| SetTitle (title : string)
| PltShow
| PltSavefig (path : string)
| PltClose.

Inductive exn : Type :=
| IndexError
| ZeroDivisionError
| Raised (by_call : call)
| UnknownColormap (name : string).

(** The outside world as the module sees it. *)
Record Env : Type := mk_Env {
  (** [os.mkdir path] succeeds *)
  mkdir_ok : string -> bool;
  (** [Population.__init__]: the loaded attributes, or a failure *)
  population_init : Z -> option Population;
  (** [matplotlib.cm.get_cmap] *)
  get_cmap : string -> option Colormap;
  (** [numpy.percentile a q] on a one-dimensional array *)
  np_percentile : list Q -> Q -> Q;
  (** a matplotlib/cartopy call returns normally *)
  render_ok : call -> bool;
  (** what [Axes.get_position] returns *)
  axes_position : Bbox
}.

Record World : Type := mk_World {
  dirs : list string;
  trace : list call
}.

Definition log (c : call) (w : World) : World :=
  {| dirs := dirs w; trace := trace w ++ [c] |}.

(** ** State and exception monad *)

Inductive result (A : Type) : Type :=
| Ok (a : A)
| Err (e : exn).
Arguments Ok {A} a.
Arguments Err {A} e.

Definition M (A : Type) : Type := World -> result A * World.

Definition ret {A} (a : A) : M A := fun w => (Ok a, w).
Definition raise {A} (e : exn) : M A := fun w => (Err e, w).
Definition bind {A B} (m : M A) (k : A -> M B) : M B :=
  fun w => match m w with
           | (Ok a, w') => k a w'
           | (Err e, w') => (Err e, w')
           end.

Notation "x <- m ;; k" := (bind m (fun x => k))
  (at level 61, m at next level, right associativity).
Notation "m ;;; k" := (bind m (fun _ => k))
  (at level 61, right associativity).

(** ** The module, over an arbitrary outside world *)

Definition Qltb (x y : Q) : bool := negb (Qle_bool y x).

Definition with_cmap (self : Plot) (cmap : Colormap) : Plot :=
  {| base := base self;
     _country_id := _country_id self;
     plot_folder := plot_folder self;
     _output_path := _output_path self;
     _img_extent := _img_extent self;
     _cmap := cmap |}.

Definition with_img_extent (self : Plot) (extent : Extent) : Plot :=
  {| base := base self;
     _country_id := _country_id self;
     plot_folder := plot_folder self;
     _output_path := _output_path self;
     _img_extent := extent;
     _cmap := _cmap self |}.

(** Attributes that [__init__] has not assigned yet; both are overwritten
    before [__init__] returns. *)
Definition unset_extent : Extent := (0, 0, 0, 0).
Definition unset_cmap : Colormap := {| cm_name := ""; cm_under := None |}.

Definition default_plot_folder : string := "./plots/".
Definition default_colormap : string := "Purples".
Definition default_padding : Q := 0.025.

Section Renderer.

Variable env : Env.

(** *** Calls into the outside world *)

Definition os_path_exists (path : string) : M bool :=
  fun w => (Ok (existsb (String.eqb path) (dirs w)), log (OsPathExists path) w).

Definition os_mkdir (path : string) : M unit :=
  fun w =>
    let w' := log (OsMkdir path) w in
    if existsb (String.eqb path) (dirs w) then (Err (Raised (OsMkdir path)), w')
    else if mkdir_ok env path
         then (Ok tt, {| dirs := path :: dirs w'; trace := trace w' |})
         else (Err (Raised (OsMkdir path)), w').

Definition Population__init__ (country_id : Z) : M Population :=
  fun w =>
    let w' := log (PopulationInit country_id) w in
    match population_init env country_id with
    | Some pop => (Ok pop, w')
    | None => (Err (Raised (PopulationInit country_id)), w')
    end.

Definition cm_get_cmap (name : string) : M Colormap :=
  match get_cmap env name with
  | Some cmap => ret cmap
  | None => raise (UnknownColormap name)
  end.

(** A matplotlib/cartopy call. *)
Definition render (c : call) : M unit :=
  fun w =>
    let w' := log c w in
    if render_ok env c then (Ok tt, w') else (Err (Raised c), w').

(** Python's [a / b] on floats. *)
Definition truediv (a b : Q) : M Q :=
  if Qeq_bool b 0 then raise ZeroDivisionError else ret (a / b).

(** *** [_add_colorbar_axs] *)

Definition _add_colorbar_axs : M unit :=
  render GetPosition ;;;
  let axpos := axes_position env in
  let pos_x := x0 axpos + width axpos + 0.025 in
  let pos_y := y0 axpos + height axpos * 0.1 in
  let cax_width := 0.025 in
  let cax_height := height axpos * 0.8 in
  render (FigAddAxes (pos_x, pos_y, cax_width, cax_height)).

(** *** [Plot._compute_image_extent] *)

Definition _compute_image_extent (self : Plot) : Plot :=
  let data := _population (base self) in
  let ll_x := _llcrnrlon (base self) in
  let ll_y := _llcrnrlat (base self) in
  let cellsize := _cellsize (base self) in
  let '(n_row, n_col) := shape data in
  let extent := (ll_x, ll_x + Py.float_of_nat n_col * cellsize,
                 ll_y, ll_y + Py.float_of_nat n_row * cellsize) in
  with_img_extent self extent.

(** *** [Plot._add_padding] *)

Definition _add_padding (self : Plot) (padding : Q) : M unit :=
  let '(ll_x, ur_x, ll_y, ur_y) := _img_extent self in
  let delta_x := (ur_x - ll_x) * padding in
  let delta_y := (ur_y - ll_y) * padding in
  render (SetExtent
            (ll_x - delta_x, ur_x + delta_x, ll_y - delta_y, ur_y + delta_y)).

(** *** [Plot.set_colormap] *)

Definition set_colormap (self : Plot) (colormap : string) : M Plot :=
  cmap <- cm_get_cmap colormap ;;
  let cmap := set_under cmap "0.8" in
  ret (with_cmap self cmap).

(** *** [Plot.__init__] *)

Definition __init__ (country_id : Z) (plot_folder : string) : M Plot :=
  last <- match Py.last_char plot_folder with
          | Some c => ret c
          | None => raise IndexError
          end ;;
  let plot_folder :=
    if Ascii.eqb last "/" then plot_folder else plot_folder ++ "/" in
  present <- os_path_exists plot_folder ;;
  (if negb present then os_mkdir plot_folder else ret tt) ;;;
  pop <- Population__init__ country_id ;;
  let self := {| base := pop;
                 _country_id := country_id;
                 plot_folder := plot_folder;
                 _output_path := plot_folder ++ Py.str country_id ++ ".png";
                 _img_extent := unset_extent;
                 _cmap := unset_cmap |} in
  let self := _compute_image_extent self in
  set_colormap self default_colormap.

(** *** [Plot.plot] *)

(** [data[data > 0]]: the cells selected by the mask, in row-major order. *)
Definition positive_cells (data : ndarray) : list Q :=
  filter (fun v => Qltb 0 v) (cells data).

Definition color_vmax (data : ndarray) : Q :=
  if (0 <? List.length (positive_cells data))%nat
  then np_percentile env (positive_cells data) 90
  else 0.

Definition plot (self : Plot) (title : string) (show : bool) : M unit :=
  let data := _population (base self) in
  let '(ll_x, ur_x, ll_y, ur_y) := _img_extent self in
  fig_width <- truediv (8 * (ur_x - ll_x)) (ur_y - ll_y) ;;
  render (PltFigure (fig_width, 8)) ;;;
  render PltAxes ;;;
  render (PltSubplotsAdjust 0.85 0.05 0.05 0.95) ;;;
  render (NaturalEarthFeature "cultural" "admin_0_countries" "50m") ;;;
  render (AddFeature 2 0.5) ;;;
  render (Coastlines "50m" 1.5 3) ;;;
  _add_padding self default_padding ;;;
  let vmax := color_vmax data in
  render (Imshow data 0 vmax (_img_extent self) (_cmap self)) ;;;
  _add_colorbar_axs ;;;
  render (PltColorbar "max" 0.85) ;;;
  render (SetLabel "Population per pixel" 12) ;;;
  render (SetTitle title) ;;;
  (if show then render PltShow else ret tt) ;;;
  render (PltSavefig (_output_path self)) ;;;
  render PltClose.

(** *** [main] *)

Definition main : M unit :=
  the_plot <- __init__ 276 default_plot_folder ;;
  plot the_plot "" false.

End Renderer.


(** ** Observations on worlds and objects *)

(** The calls logged between two worlds of one run. *)
Definition new_calls (before after : World) : list call :=
  skipn (List.length (trace before)) (trace after).

(** Number of figures pyplot holds after a sequence of calls: [plt.figure]
    opens one, [plt.close] releases the current one. *)
Fixpoint open_figures (env : Env) (calls : list call) (held : nat) : nat :=
  match calls with
  | [] => held
  | PltFigure sz :: rest =>
      open_figures env rest (if render_ok env (PltFigure sz) then S held else held)
  | PltClose :: rest =>
      open_figures env rest (if render_ok env PltClose then Nat.pred held else held)
  | _ :: rest => open_figures env rest held
  end.

(** The ImageExtent invariant of the data model. *)
Definition extent_ordered (e : Extent) : Prop :=
  let '(ll_x, ur_x, ll_y, ur_y) := e in ll_x <= ur_x /\ ll_y <= ur_y.

Definition ends_with_separator (s : string) : Prop :=
  exists stem, s = stem ++ "/".

(** The folder [__init__] works with after its first two statements. *)
Definition folder_used (folder : string) (last : ascii) : string :=
  if Ascii.eqb last "/" then folder else folder ++ "/".

(** The object [__init__] returns, spelled out attribute by attribute. *)
Definition built (country_id : Z) (folder : string) (pop : Population)
    (cmap : Colormap) : Plot :=
  {| base := pop;
     _country_id := country_id;
     plot_folder := folder;
     _output_path := folder ++ Py.str country_id ++ ".png";
     _img_extent :=
       (_llcrnrlon pop,
        _llcrnrlon pop + Py.float_of_nat (n_col (_population pop)) * _cellsize pop,
        _llcrnrlat pop,
        _llcrnrlat pop + Py.float_of_nat (n_row (_population pop)) * _cellsize pop);
     _cmap := set_under cmap "0.8" |}.

(** What is left of [__init__] once the folder exists: load, fill in the
    attributes, pick the default ramp. *)
Definition init_after_folder (env : Env) (country_id : Z) (folder : string)
    (w : World) : result Plot * World :=
  let w' := log (PopulationInit country_id) w in
  match population_init env country_id with
  | None => (Err (Raised (PopulationInit country_id)), w')
  | Some pop =>
      match get_cmap env default_colormap with
      | None => (Err (UnknownColormap default_colormap), w')
      | Some cmap => (Ok (built country_id folder pop cmap), w')
      end
  end.

(** Objects a client can hold: built by [__init__], then changed only
    through [set_colormap]. *)
Inductive reachable (env : Env) : Plot -> Prop :=
| reach_init : forall country_id folder w self w',
    __init__ env country_id folder w = (Ok self, w') ->
    reachable env self
| reach_set_colormap : forall self colormap w self' w',
    reachable env self ->
    set_colormap env self colormap w = (Ok self', w') ->
    reachable env self'.

(** A straight-line sequence of plotting calls, stopped by the first one
    that raises. *)
Fixpoint run_calls (env : Env) (cs : list call) : M unit :=
  match cs with
  | [] => ret tt
  | c :: rest => render env c ;;; run_calls env rest
  end.

(** The calls of a sequence that are reached. *)
Fixpoint attempted (env : Env) (cs : list call) : list call :=
  match cs with
  | [] => []
  | c :: rest => c :: (if render_ok env c then attempted env rest else [])
  end.

(** The calls [plot] issues once the figure width is known. *)
Definition plot_head (env : Env) (self : Plot) (fig_width : Q) : list call :=
  let '(ll_x, ur_x, ll_y, ur_y) := _img_extent self in
  [ PltFigure (fig_width, 8);
    PltAxes;
    PltSubplotsAdjust 0.85 0.05 0.05 0.95;
    NaturalEarthFeature "cultural" "admin_0_countries" "50m";
    AddFeature 2 0.5;
    Coastlines "50m" 1.5 3;
    SetExtent (ll_x - (ur_x - ll_x) * default_padding,
               ur_x + (ur_x - ll_x) * default_padding,
               ll_y - (ur_y - ll_y) * default_padding,
               ur_y + (ur_y - ll_y) * default_padding);
    Imshow (_population (base self)) 0 (color_vmax env (_population (base self)))
           (_img_extent self) (_cmap self);
    GetPosition;
    FigAddAxes (x0 (axes_position env) + width (axes_position env) + 0.025,
                y0 (axes_position env) + height (axes_position env) * 0.1,
                0.025,
                height (axes_position env) * 0.8);
    PltColorbar "max" 0.85;
    SetLabel "Population per pixel" 12 ].

(** The calls [plot] makes before the raster overlay, from [plt.figure] to
    [_add_padding]. *)
Definition plot_setup (self : Plot) (fig_width : Q) : list call :=
  let '(ll_x, ur_x, ll_y, ur_y) := _img_extent self in
  [ PltFigure (fig_width, 8);
    PltAxes;
    PltSubplotsAdjust 0.85 0.05 0.05 0.95;
    NaturalEarthFeature "cultural" "admin_0_countries" "50m";
    AddFeature 2 0.5;
    Coastlines "50m" 1.5 3;
    SetExtent (ll_x - (ur_x - ll_x) * default_padding,
               ur_x + (ur_x - ll_x) * default_padding,
               ll_y - (ur_y - ll_y) * default_padding,
               ur_y + (ur_y - ll_y) * default_padding) ].

Definition plot_tail (self : Plot) (title : string) (show : bool) : list call :=
  SetTitle title :: (if show then [PltShow] else [])
    ++ [PltSavefig (_output_path self); PltClose].

(** ** Sample worlds *)

Fixpoint insert_sorted (x : Q) (l : list Q) : list Q :=
  match l with
  | [] => [x]
  | y :: rest => if Qle_bool x y then x :: l else y :: insert_sorted x rest
  end.

(** A stand-in for [numpy.percentile] with its default linear
    interpolation, used to run the samples. *)
Definition percentile_linear (a : list Q) (q : Q) : Q :=
  let sorted := fold_right insert_sorted [] a in
  let last := (List.length sorted - 1)%nat in
  let pos := q / 100 * Py.float_of_nat last in
  let lo := Z.to_nat (Qfloor pos) in
  let hi := Nat.min (S lo) last in
  Qred (nth lo sorted 0
        + (nth hi sorted 0 - nth lo sorted 0) * (pos - inject_Z (Qfloor pos))).

Definition sample_grid : ndarray :=
  {| n_row := 4; n_col := 4;
     cells := [0; 0; 1; 2;
               0; 3; 4; 5;
               6; 0; 0; 0;
               0; 0; 0; 0] |}.

Definition sample_population : Population :=
  {| _population := sample_grid;
     _llcrnrlon := 0; _llcrnrlat := 0; _cellsize := 1 |}.

Definition known_ramp (name : string) : option Colormap :=
  if existsb (String.eqb name) ["Purples"; "viridis"; "Blues"]
  then Some {| cm_name := name; cm_under := None |}
  else None.

Definition sample_env : Env :=
  {| mkdir_ok := fun _ => true;
     population_init := fun cid => if (cid =? 276)%Z then Some sample_population else None;
     get_cmap := known_ramp;
     np_percentile := percentile_linear;
     render_ok := fun _ => true;
     axes_position := {| x0 := 0.05; y0 := 0.05; width := 0.8; height := 0.9 |} |}.

Definition empty_world : World := {| dirs := []; trace := [] |}.

(** A loader that hands out a grid with a negative cell size. *)
Definition flipped_population : Population :=
  {| _population := sample_grid;
     _llcrnrlon := 0; _llcrnrlat := 0; _cellsize := -1 |}.

Definition flipped_env : Env :=
  {| mkdir_ok := fun _ => true;
     population_init := fun _ => Some flipped_population;
     get_cmap := known_ramp;
     np_percentile := percentile_linear;
     render_ok := fun _ => true;
     axes_position := axes_position sample_env |}.

(** A world in which the target path cannot be written. *)
Definition readonly_env : Env :=
  {| mkdir_ok := fun _ => true;
     population_init := population_init sample_env;
     get_cmap := known_ramp;
     np_percentile := percentile_linear;
     render_ok := fun c => match c with PltSavefig _ => false | _ => true end;
     axes_position := axes_position sample_env |}.

(** A grid without rows. *)
Definition rowless_population : Population :=
  {| _population := {| n_row := 0; n_col := 3; cells := [] |};
     _llcrnrlon := 5; _llcrnrlat := 47; _cellsize := 1 |}.

Definition rowless_env : Env :=
  {| mkdir_ok := fun _ => true;
     population_init := fun _ => Some rowless_population;
     get_cmap := known_ramp;
     np_percentile := percentile_linear;
     render_ok := fun _ => true;
     axes_position := axes_position sample_env |}.

Definition sample_plot : Plot :=
  {| base := sample_population;
     _country_id := 276;
     plot_folder := "plots/";
     _output_path := "plots/276.png";
     _img_extent := (0, 0 + Py.float_of_nat 4 * 1, 0, 0 + Py.float_of_nat 4 * 1);
     _cmap := {| cm_name := "Purples"; cm_under := Some "0.8" |} |}.


(** ** Generic facts: rationals, strings, traces *)

Lemma Qltb_lt (x y : Q) : Qltb x y = true <-> x < y.
Proof.
  unfold Qltb. rewrite negb_true_iff.
  split; intro H.
  - apply Qnot_le_lt. intro Hle. apply Qle_bool_iff in Hle. congruence.
  - destruct (Qle_bool y x) eqn:E; [|reflexivity].
    apply Qle_bool_iff in E. exfalso. apply (Qlt_not_le _ _ H E).
Qed.

(** Multiplication on [Q] commutes on the nose, not only up to [==]. *)
Lemma Qmult_comm_eq (x y : Q) : x * y = y * x.
Proof.
  destruct x as [a b], y as [c d]. unfold Qmult; simpl.
  now rewrite Z.mul_comm, Pos.mul_comm.
Qed.

Lemma last_char_app_sep (stem : string) : Py.last_char (stem ++ "/") = Some "/"%char.
Proof.
  induction stem as [|c stem IH]; [reflexivity|].
  simpl. rewrite IH.
  destruct (stem ++ "/") eqn:E; [|reflexivity].
  destruct stem; discriminate.
Qed.

Lemma last_char_some (s : string) (c : ascii) :
  Py.last_char s = Some c -> exists stem, s = stem ++ String c EmptyString.
Proof.
  induction s as [|a s IH]; [discriminate|].
  destruct s as [|b s'].
  - simpl. intros [= ->]. now exists "".
  - intro H. change (Py.last_char (String b s') = Some c) in H.
    destruct (IH H) as [stem ->]. now exists (String a stem).
Qed.

Lemma last_char_none (s : string) : Py.last_char s = None <-> s = "".
Proof.
  split; [|now intros ->].
  induction s as [|a s IH]; [reflexivity|].
  destruct s as [|b s']; [discriminate|].
  intro H. change (Py.last_char (String b s') = None) in H.
  apply IH in H. discriminate.
Qed.

Lemma ends_with_separator_iff (s : string) :
  ends_with_separator s <-> Py.last_char s = Some "/"%char.
Proof.
  split.
  - intros [stem ->]. apply last_char_app_sep.
  - intro H. apply last_char_some in H. exact H.
Qed.

Lemma new_calls_app (w w' : World) (l : list call) :
  trace w' = (trace w ++ l)%list -> new_calls w w' = l.
Proof.
  intro H. unfold new_calls. rewrite H.
  rewrite skipn_app, skipn_all, Nat.sub_diag. reflexivity.
Qed.

Section TraceFacts.

Variable env : Env.

Lemma render_trace (c : call) (w : World) :
  trace (snd (render env c w)) = (trace w ++ [c])%list /\
  dirs (snd (render env c w)) = dirs w.
Proof.
  unfold render. destruct (render_ok env c); simpl; auto.
Qed.

Lemma run_calls_trace (cs : list call) :
  forall w, trace (snd (run_calls env cs w)) = (trace w ++ attempted env cs)%list.
Proof.
  induction cs as [|c cs IH]; intro w; simpl.
  - now rewrite app_nil_r.
  - unfold bind, render. destruct (render_ok env c); simpl.
    + rewrite IH. simpl. now rewrite <- app_assoc.
    + reflexivity.
Qed.

Lemma run_calls_app (cs1 cs2 : list call) :
  forall w, run_calls env (cs1 ++ cs2)%list w =
            (run_calls env cs1 ;;; run_calls env cs2) w.
Proof.
  induction cs1 as [|c cs1 IH]; intro w; simpl.
  - reflexivity.
  - unfold bind in *. destruct (render env c w) as [[[]|e] w1]; [|reflexivity].
    rewrite IH. reflexivity.
Qed.

(** A run that returns has made every call, and the oracle accepted each. *)
Lemma run_calls_ok (cs : list call) :
  forall w, fst (run_calls env cs w) = Ok tt <->
            forallb (render_ok env) cs = true.
Proof.
  induction cs as [|c cs IH]; intro w; simpl.
  - tauto.
  - unfold bind, render. destruct (render_ok env c); simpl.
    + apply IH.
    + split; discriminate.
Qed.

Lemma attempted_all (cs : list call) :
  forallb (render_ok env) cs = true -> attempted env cs = cs.
Proof.
  induction cs as [|c cs IH]; simpl; [reflexivity|].
  intro H. apply andb_true_iff in H. destruct H as [Hc Hcs].
  rewrite Hc, IH by assumption. reflexivity.
Qed.

(** A run that raises stops at the first rejected call. *)
Lemma run_calls_err (cs : list call) :
  forall w e, fst (run_calls env cs w) = Err e ->
    exists pre c post,
      cs = (pre ++ c :: post)%list /\
      forallb (render_ok env) pre = true /\
      render_ok env c = false /\
      e = Raised c /\
      attempted env cs = (pre ++ [c])%list.
Proof.
  induction cs as [|c cs IH]; intros w e; simpl.
  - discriminate.
  - unfold bind, render. destruct (render_ok env c) eqn:Hc; simpl.
    + intro H. destruct (IH _ _ H) as (pre & c' & post & -> & Hpre & Hc' & -> & Hatt).
      exists (c :: pre), c', post. simpl. rewrite Hc, Hpre, Hatt. auto.
    + intros [= <-]. exists [], c, cs. auto.
Qed.

(** [plot] is a division followed by a straight line of calls. *)
Lemma plot_unfold (self : Plot) (title : string) (show : bool) (w : World) :
  plot env self title show w =
  let '(ll_x, ur_x, ll_y, ur_y) := _img_extent self in
  if Qeq_bool (ur_y - ll_y) 0
  then (Err ZeroDivisionError, w)
  else run_calls env
         (plot_head env self (8 * (ur_x - ll_x) / (ur_y - ll_y))
          ++ plot_tail self title show) w.
Proof.
  unfold plot, plot_head, plot_tail, truediv, _add_padding, _add_colorbar_axs.
  destruct (_img_extent self) as [[[ll_x ur_x] ll_y] ur_y].
  destruct (Qeq_bool (ur_y - ll_y) 0); [reflexivity|].
  destruct show; cbn [run_calls app];
    unfold bind, render, ret;
    repeat match goal with
           | |- context [render_ok env ?c] =>
               destruct (render_ok env c); [|reflexivity]
           end; reflexivity.
Qed.

End TraceFacts.


(** ** Facts about construction *)

Section InitFacts.

Variable env : Env.

(** [__init__] as a decision tree over what the outside world answers. *)
Lemma init_unfold (country_id : Z) (folder : string) (w : World) :
  __init__ env country_id folder w =
  match Py.last_char folder with
  | None => (Err IndexError, w)
  | Some last =>
      let nf := folder_used folder last in
      let w1 := log (OsPathExists nf) w in
      let w2 := log (OsMkdir nf) w1 in
      if existsb (String.eqb nf) (dirs w)
      then init_after_folder env country_id nf w1
      else if mkdir_ok env nf
           then init_after_folder env country_id nf
                  {| dirs := nf :: dirs w2; trace := trace w2 |}
           else (Err (Raised (OsMkdir nf)), w2)
  end.
Proof.
  unfold __init__, init_after_folder, folder_used.
  destruct (Py.last_char folder) as [last|]; [|reflexivity].
  unfold bind, ret, os_path_exists, os_mkdir, Population__init__,
    set_colormap, cm_get_cmap, raise.
  cbv zeta.
  destruct (existsb _ (dirs w)) eqn:Hex; cbv beta iota delta [negb].
  - destruct (population_init env country_id); [|reflexivity].
    destruct (get_cmap env default_colormap); reflexivity.
  - cbn [dirs log]. rewrite Hex.
    destruct (mkdir_ok env _); [|reflexivity].
    destruct (population_init env country_id); [|reflexivity].
    destruct (get_cmap env default_colormap); reflexivity.
Qed.

Lemma init_after_folder_trace (country_id : Z) (folder : string) (w : World) :
  trace (snd (init_after_folder env country_id folder w)) =
    (trace w ++ [PopulationInit country_id])%list.
Proof.
  unfold init_after_folder.
  destruct (population_init env country_id); [|reflexivity].
  destruct (get_cmap env default_colormap); reflexivity.
Qed.

Lemma init_after_folder_ok (country_id : Z) (folder : string) (w w' : World)
    (self : Plot) :
  init_after_folder env country_id folder w = (Ok self, w') ->
  exists pop cmap,
    population_init env country_id = Some pop /\
    get_cmap env default_colormap = Some cmap /\
    self = built country_id folder pop cmap.
Proof.
  unfold init_after_folder.
  destruct (population_init env country_id) as [pop|]; [|discriminate].
  destruct (get_cmap env default_colormap) as [cmap|]; [|discriminate].
  intros [= <- _]. now exists pop, cmap.
Qed.

Lemma init_ok_inv (country_id : Z) (folder : string) (w w' : World) (self : Plot) :
  __init__ env country_id folder w = (Ok self, w') ->
  exists last pop cmap,
    Py.last_char folder = Some last /\
    population_init env country_id = Some pop /\
    get_cmap env default_colormap = Some cmap /\
    self = built country_id (folder_used folder last) pop cmap.
Proof.
  rewrite init_unfold.
  destruct (Py.last_char folder) as [last|]; [|discriminate].
  cbv zeta.
  destruct (existsb _ (dirs w)); [|destruct (mkdir_ok env _); [|discriminate]];
    intro H; apply init_after_folder_ok in H;
    destruct H as (pop & cmap & Hpop & Hcm & ->);
    now exists last, pop, cmap.
Qed.

(** Construction returns whenever the folder is not empty, a missing
    directory can be made, the loader knows the country and the default
    ramp is registered. *)
Lemma init_returns (country_id : Z) (folder : string) (w : World)
    (last : ascii) (pop : Population) (cmap : Colormap) :
  Py.last_char folder = Some last ->
  (forall p, existsb (String.eqb p) (dirs w) = false -> mkdir_ok env p = true) ->
  population_init env country_id = Some pop ->
  get_cmap env default_colormap = Some cmap ->
  exists w',
    __init__ env country_id folder w =
      (Ok (built country_id (folder_used folder last) pop cmap), w').
Proof.
  intros Hlast Hmk Hpop Hcm.
  rewrite init_unfold, Hlast. cbv zeta. unfold init_after_folder.
  rewrite Hpop, Hcm.
  destruct (existsb _ (dirs w)) eqn:Hex.
  - eexists. reflexivity.
  - rewrite (Hmk _ Hex). eexists. reflexivity.
Qed.


Lemma set_colormap_inv (self self' : Plot) (colormap : string) (w w' : World) :
  set_colormap env self colormap w = (Ok self', w') ->
  exists cmap, get_cmap env colormap = Some cmap /\
               self' = with_cmap self (set_under cmap "0.8") /\ w' = w.
Proof.
  unfold set_colormap, cm_get_cmap, bind.
  destruct (get_cmap env colormap) as [cmap|]; [|unfold raise; discriminate].
  unfold ret. intros [= <- <-]. now exists cmap.
Qed.

(** What every reachable object satisfies. *)
Lemma reachable_inv (self : Plot) :
  reachable env self ->
  cm_under (_cmap self) = Some "0.8" /\
  _img_extent self =
    (_llcrnrlon (base self),
     _llcrnrlon (base self)
       + Py.float_of_nat (n_col (_population (base self))) * _cellsize (base self),
     _llcrnrlat (base self),
     _llcrnrlat (base self)
       + Py.float_of_nat (n_row (_population (base self))) * _cellsize (base self)).
Proof.
  induction 1 as [cid folder w self w' H | self name w self' w' Hr IH H].
  - apply init_ok_inv in H.
    destruct H as (last & pop & cmap & _ & _ & _ & ->). split; reflexivity.
  - apply set_colormap_inv in H. destruct H as (cmap & _ & -> & _).
    destruct IH as [_ IH]. split; [reflexivity|exact IH].
Qed.

End InitFacts.

(** ** Construction: extent, folder and target path *)

(** C1. For every valid country identifier the extent computed at
    construction is [(lon0, lon0 + cols*cellsize, lat0, lat0 + rows*cellsize)],
    with [(lon0, lat0)] the lower-left corner, [cellsize] the cell size and
    [(rows, cols)] the shape of the loaded grid.  Construction does return
    here: the folder is not empty, a missing directory can be made and the
    default ramp is registered. *)
Theorem extent_at_construction (env : Env) (country_id : Z) (folder : string)
    (w : World) (pop : Population) :
  folder <> "" ->
  (forall p, existsb (String.eqb p) (dirs w) = false -> mkdir_ok env p = true) ->
  population_init env country_id = Some pop ->
  get_cmap env default_colormap <> None ->
  exists self w',
    __init__ env country_id folder w = (Ok self, w') /\
    base self = pop /\
    let lon0 := _llcrnrlon pop in
    let lat0 := _llcrnrlat pop in
    let cellsize := _cellsize pop in
    let '(rows, cols) := shape (_population pop) in
    _img_extent self =
      (lon0, lon0 + Py.float_of_nat cols * cellsize,
       lat0, lat0 + Py.float_of_nat rows * cellsize).
Proof.
  intros Hne Hmk Hpop Hcm.
  destruct (Py.last_char folder) as [last|] eqn:Hlast;
    [|apply last_char_none in Hlast; contradiction].
  destruct (get_cmap env default_colormap) as [cmap|] eqn:Hc; [|contradiction].
  destruct (init_returns env country_id folder w Hlast Hmk Hpop Hc) as [w' Hrun].
  exists (built country_id (folder_used folder last) pop cmap), w'.
  split; [exact Hrun|]. split; reflexivity.
Qed.

Lemma extent_at_construction_witness :
  exists self w',
    __init__ sample_env 276 "plots" empty_world = (Ok self, w') /\
    base self = sample_population /\
    _img_extent self =
      (0, 0 + Py.float_of_nat 4 * 1, 0, 0 + Py.float_of_nat 4 * 1).
Proof.
  apply (@extent_at_construction sample_env 276 "plots" empty_world
           sample_population).
  - discriminate.
  - reflexivity.
  - reflexivity.
  - discriminate.
Defined.

(** The grid of the end-to-end example is well formed and has extent
    [(0, 4, 0, 4)]. *)
Example sample_grid_wf : wf_ndarray sample_grid.
Proof. reflexivity. Qed.

Example sample_extent :
  exists self w',
    __init__ sample_env 276 "plots" empty_world = (Ok self, w') /\
    _img_extent self = (0, 4, 0, 4).
Proof. eexists. eexists. split; [cbv; reflexivity|reflexivity]. Qed.

(** C2, as stated, fails: a grid whose cell size is negative is built
    without complaint and its extent has max below min on both axes. *)
Lemma negative_cellsize_breaks_order :
  exists self w',
    __init__ flipped_env 1 "plots/" empty_world = (Ok self, w') /\
    _cellsize (base self) = -1 /\
    _img_extent self = (0, -4, 0, -4) /\
    ~ extent_ordered (_img_extent self).
Proof.
  eexists. eexists. split; [cbv; reflexivity|].
  split; [reflexivity|]. split; [reflexivity|].
  intros [H _]. vm_compute in H. apply H. reflexivity.
Qed.

(** C2, amended.  For every object reachable through construction whose grid
    has a cell size that is not negative (any corner, any shape), the extent
    satisfies max-longitude >= min-longitude and max-latitude >=
    min-latitude. *)
Theorem extent_ordered_when_cellsize_nonneg (env : Env) (self : Plot) :
  reachable env self ->
  0 <= _cellsize (base self) ->
  extent_ordered (_img_extent self).
Proof.
  intros Hr Hc. destruct (reachable_inv Hr) as [_ ->].
  assert (Hn : forall n, 0 <= Py.float_of_nat n * _cellsize (base self)).
  { intro n. apply Qmult_le_0_compat; [|exact Hc].
    unfold Py.float_of_nat. change 0 with (inject_Z 0).
    rewrite <- Zle_Qle. lia. }
  unfold extent_ordered. split.
  - specialize (Hn (n_col (_population (base self)))). lra.
  - specialize (Hn (n_row (_population (base self)))). lra.
Qed.

Lemma extent_ordered_when_cellsize_nonneg_witness :
  extent_ordered
    (_img_extent
       (built 276 "plots/" sample_population
          {| cm_name := "Purples"; cm_under := None |})).
Proof.
  apply (@extent_ordered_when_cellsize_nonneg sample_env).
  - apply (@reach_init sample_env 276 "plots" empty_world _
             {| dirs := ["plots/"];
                trace := [OsPathExists "plots/"; OsMkdir "plots/";
                          PopulationInit 276] |}).
    reflexivity.
  - vm_compute. discriminate.
Defined.

(** C9. With the empty string as output folder, construction raises
    [IndexError] on [plot_folder[-1]]; the world is left as it was: no
    directory test or creation, no loading. *)
Theorem empty_folder_raises_index_error (env : Env) (country_id : Z) (w : World) :
  __init__ env country_id "" w = (Err IndexError, w).
Proof. reflexivity. Qed.



(** The example of the specification, run. *)
Example plots_gets_a_separator :
  exists self w',
    __init__ sample_env 276 "plots" empty_world = (Ok self, w') /\
    plot_folder self = "plots/" /\
    _output_path self = "plots/276.png" /\
    trace w' = [OsPathExists "plots/"; OsMkdir "plots/"; PopulationInit 276].
Proof. eexists. eexists. split; [cbv; reflexivity|repeat split]. Qed.

(** ** Facts about rendering *)

Section PlotFacts.

Variable env : Env.

Lemma attempted_incl (cs : list call) (c : call) :
  In c (attempted env cs) -> In c cs.
Proof.
  induction cs as [|c' cs IH]; simpl; [tauto|].
  intros [H|H]; [now left|].
  destruct (render_ok env c'); [right; auto|contradiction].
Qed.

Lemma plot_zero_height (self : Plot) (title : string) (show : bool) (w : World)
    (ll_x ur_x ll_y ur_y : Q) :
  _img_extent self = (ll_x, ur_x, ll_y, ur_y) ->
  ur_y - ll_y == 0 ->
  plot env self title show w = (Err ZeroDivisionError, w).
Proof.
  intros He Hz. rewrite plot_unfold, He.
  apply Qeq_bool_iff in Hz. now rewrite Hz.
Qed.

Lemma plot_nonzero_height (self : Plot) (title : string) (show : bool) (w : World)
    (ll_x ur_x ll_y ur_y : Q) :
  _img_extent self = (ll_x, ur_x, ll_y, ur_y) ->
  ~ ur_y - ll_y == 0 ->
  plot env self title show w =
    run_calls env
      (plot_head env self (8 * (ur_x - ll_x) / (ur_y - ll_y))
       ++ plot_tail self title show) w.
Proof.
  intros He Hz. rewrite plot_unfold, He.
  destruct (Qeq_bool (ur_y - ll_y) 0) eqn:E; [|reflexivity].
  apply Qeq_bool_iff in E. contradiction.
Qed.

(** Every call [plot] logs is one of its script. *)
Lemma plot_calls_incl (self : Plot) (title : string) (show : bool) (w : World)
    (c : call) :
  In c (new_calls w (snd (plot env self title show w))) ->
  exists fig_width,
    In c (plot_head env self fig_width ++ plot_tail self title show).
Proof.
  rewrite plot_unfold.
  destruct (_img_extent self) as [[[ll_x ur_x] ll_y] ur_y] eqn:He.
  destruct (Qeq_bool (ur_y - ll_y) 0).
  - simpl. unfold new_calls. rewrite skipn_all. contradiction.
  - rewrite (@new_calls_app w _ _ (run_calls_trace env _ w)).
    intro H. apply attempted_incl in H. eauto.
Qed.

Lemma imshow_in_script (self : Plot) (title : string) (show : bool)
    (fig_width : Q) (d : ndarray) (vmin vmax : Q) (e : Extent) (c : Colormap) :
  In (Imshow d vmin vmax e c)
     (plot_head env self fig_width ++ plot_tail self title show) ->
  d = _population (base self) /\ vmin = 0 /\
  vmax = color_vmax env (_population (base self)) /\
  e = _img_extent self /\ c = _cmap self.
Proof.
  unfold plot_head, plot_tail.
  destruct (_img_extent self) as [[[ll_x ur_x] ll_y] ur_y].
  destruct show; simpl;
    intro H;
    repeat match type of H with
           | _ \/ _ => destruct H as [H|H]
           | False => contradiction
           | _ = _ => first [discriminate H | inversion H; clear H]
           end; auto.
Qed.

Lemma set_extent_in_script (self : Plot) (title : string) (show : bool)
    (fig_width : Q) (e : Extent) :
  In (SetExtent e)
     (plot_head env self fig_width ++ plot_tail self title show) ->
  let '(ll_x, ur_x, ll_y, ur_y) := _img_extent self in
  e = (ll_x - (ur_x - ll_x) * default_padding,
       ur_x + (ur_x - ll_x) * default_padding,
       ll_y - (ur_y - ll_y) * default_padding,
       ur_y + (ur_y - ll_y) * default_padding).
Proof.
  unfold plot_head, plot_tail.
  destruct (_img_extent self) as [[[ll_x ur_x] ll_y] ur_y].
  destruct show; simpl;
    intro H;
    repeat match type of H with
           | _ \/ _ => destruct H as [H|H]
           | False => contradiction
           | _ = _ => first [discriminate H | inversion H; clear H]
           end; auto.
Qed.

Lemma positive_cells_spec (data : ndarray) (v : Q) :
  In v (positive_cells data) <-> In v (cells data) /\ 0 < v.
Proof.
  unfold positive_cells. rewrite filter_In, Qltb_lt. tauto.
Qed.

Lemma color_vmax_none_positive (data : ndarray) :
  ~ (exists v, In v (cells data) /\ 0 < v) -> color_vmax env data = 0.
Proof.
  intro Hnone. unfold color_vmax.
  destruct (positive_cells data) as [|v l] eqn:E; [reflexivity|].
  exfalso. apply Hnone. exists v. apply positive_cells_spec.
  rewrite E. now left.
Qed.

Lemma color_vmax_some_positive (data : ndarray) :
  (exists v, In v (cells data) /\ 0 < v) ->
  color_vmax env data = np_percentile env (positive_cells data) 90.
Proof.
  intros [v Hv]. apply positive_cells_spec in Hv. unfold color_vmax.
  destruct (positive_cells data) as [|x l]; [contradiction|reflexivity].
Qed.

Lemma attempted_app (pre rest : list call) :
  forallb (render_ok env) pre = true ->
  attempted env (pre ++ rest) = (pre ++ attempted env rest)%list.
Proof.
  induction pre as [|c pre IH]; simpl; [reflexivity|].
  intro H. apply andb_true_iff in H. destruct H as [Hc Hpre].
  now rewrite Hc, IH.
Qed.

(** Once the height is not zero and the calls before it return, the raster
    overlay is called, with the grid, the minimum 0, the computed bound,
    the stored extent and the active ramp. *)
Lemma plot_reaches_imshow (self : Plot) (title : string) (show : bool)
    (w : World) (ll_x ur_x ll_y ur_y : Q) :
  _img_extent self = (ll_x, ur_x, ll_y, ur_y) ->
  ~ ur_y - ll_y == 0 ->
  forallb (render_ok env)
    (plot_setup self (8 * (ur_x - ll_x) / (ur_y - ll_y))) = true ->
  exists later,
    new_calls w (snd (plot env self title show w)) =
      (plot_setup self (8 * (ur_x - ll_x) / (ur_y - ll_y))
       ++ Imshow (_population (base self)) 0
            (color_vmax env (_population (base self)))
            (_img_extent self) (_cmap self)
          :: later)%list.
Proof.
  intros He Hnz Hok.
  rewrite (plot_nonzero_height self title show w He Hnz).
  rewrite (@new_calls_app w _ _ (run_calls_trace env _ w)).
  set (fw := 8 * (ur_x - ll_x) / (ur_y - ll_y)) in *.
  assert (Hsplit : exists rest,
             (plot_head env self fw ++ plot_tail self title show)%list =
             (plot_setup self fw
              ++ Imshow (_population (base self)) 0
                   (color_vmax env (_population (base self)))
                   (_img_extent self) (_cmap self)
                 :: rest)%list).
  { unfold plot_head, plot_setup. rewrite He. simpl. eexists. reflexivity. }
  destruct Hsplit as [rest ->].
  rewrite (attempted_app _ _ Hok). simpl. eexists. reflexivity.
Qed.

End PlotFacts.

(** ** Rendering: colour scale, padding, ramp *)

(** C3. In every render call the upper bound handed to the raster overlay
    is 0 when no grid cell is strictly positive, and otherwise it is the
    90th percentile of the strictly positive cells.  The bound is handed
    over: when the extent height is not zero and the calls before the
    overlay return, [plot] calls [imshow] with the grid and that bound; and
    a render call that returns has made that overlay call. *)
Theorem color_scale_upper_bound (env : Env) (self : Plot) (title : string)
    (show : bool) (w : World) :
  let data := _population (base self) in
  let issued := new_calls w (snd (plot env self title show w)) in
  (forall v, In v (positive_cells data) <-> In v (cells data) /\ 0 < v) /\
  (forall d vmin vmax e c,
      In (Imshow d vmin vmax e c) issued ->
      d = data /\
      (~ (exists v, In v (cells data) /\ 0 < v) -> vmax = 0) /\
      ((exists v, In v (cells data) /\ 0 < v) ->
       vmax = np_percentile env (positive_cells data) 90)) /\
  (fst (plot env self title show w) = Ok tt ->
   exists vmin vmax e c, In (Imshow data vmin vmax e c) issued) /\
  (forall ll_x ur_x ll_y ur_y,
      _img_extent self = (ll_x, ur_x, ll_y, ur_y) ->
      ~ ur_y - ll_y == 0 ->
      forallb (render_ok env)
        (plot_setup self (8 * (ur_x - ll_x) / (ur_y - ll_y))) = true ->
      exists vmax later,
        issued =
          (plot_setup self (8 * (ur_x - ll_x) / (ur_y - ll_y))
           ++ Imshow data 0 vmax (_img_extent self) (_cmap self) :: later)%list /\
        (~ (exists v, In v (cells data) /\ 0 < v) -> vmax = 0) /\
        ((exists v, In v (cells data) /\ 0 < v) ->
         vmax = np_percentile env (positive_cells data) 90)).
Proof.
  cbv zeta. split; [|split; [|split]].
  - apply positive_cells_spec.
  - intros d vmin vmax e c H.
    apply plot_calls_incl in H. destruct H as [fw H].
    apply imshow_in_script in H. destruct H as (-> & _ & -> & _ & _).
    split; [reflexivity|]. split.
    + apply color_vmax_none_positive.
    + apply color_vmax_some_positive.
  - rewrite plot_unfold.
    destruct (_img_extent self) as [[[ll_x ur_x] ll_y] ur_y] eqn:He.
    destruct (Qeq_bool (ur_y - ll_y) 0); [discriminate|].
    intro Hok. apply run_calls_ok in Hok.
    rewrite (@new_calls_app w _ _ (run_calls_trace env _ w)).
    rewrite (attempted_all env _ Hok).
    exists 0, (color_vmax env (_population (base self))), (ll_x, ur_x, ll_y, ur_y),
      (_cmap self).
    unfold plot_head. rewrite He. simpl. tauto.
  - intros ll_x ur_x ll_y ur_y He Hnz Hok.
    destruct (plot_reaches_imshow env self title show w He Hnz Hok) as [later H].
    exists (color_vmax env (_population (base self))), later.
    split; [exact H|]. split.
    + apply color_vmax_none_positive.
    + apply color_vmax_some_positive.
Qed.

(** The overlay call of the end-to-end example: the sample grid with the
    bounds 0 and 5.5, whatever happens after it. *)
Example sample_overlay :
  In (Imshow sample_grid 0 (11 # 2) (0, 4, 0, 4)
        {| cm_name := "Purples"; cm_under := Some "0.8" |})
     (trace (snd (plot sample_env sample_plot "" false empty_world))) /\
  In (Imshow sample_grid 0 (11 # 2) (0, 4, 0, 4)
        {| cm_name := "Purples"; cm_under := Some "0.8" |})
     (trace (snd (plot readonly_env sample_plot "" false empty_world))).
Proof. split; cbv; tauto. Qed.

(** The end-to-end example: the positive cells are 1..6 and the bound is
    5.5 under linear interpolation. *)
Example sample_upper_bound :
  positive_cells sample_grid = [1; 2; 3; 4; 5; 6] /\
  color_vmax sample_env sample_grid = 11 # 2 /\
  color_vmax sample_env sample_grid == 5.5.
Proof. repeat split. Qed.

Example all_nonpositive_upper_bound :
  color_vmax sample_env {| n_row := 1; n_col := 3; cells := [0; -9999; 0] |} = 0.
Proof. reflexivity. Qed.

(** C4. For every extent [(ll_x, ur_x, ll_y, ur_y)] with width [W] and
    height [H], the padding step sets the axes extent to exactly
    [(ll_x - 0.025*W, ur_x + 0.025*W, ll_y - 0.025*H, ur_y + 0.025*H)]:
    that is the one call it makes, and the only extent [plot] ever sets. *)
Theorem padding_sets_extent (env : Env) (self : Plot) (w : World)
    (ll_x ur_x ll_y ur_y : Q) :
  _img_extent self = (ll_x, ur_x, ll_y, ur_y) ->
  let W := ur_x - ll_x in
  let H := ur_y - ll_y in
  let padded := (ll_x - 0.025 * W, ur_x + 0.025 * W,
                 ll_y - 0.025 * H, ur_y + 0.025 * H) in
  new_calls w (snd (_add_padding env self default_padding w)) = [SetExtent padded] /\
  (forall title show w1 e,
      In (SetExtent e) (new_calls w1 (snd (plot env self title show w1))) ->
      e = padded).
Proof.
  intros He W H padded.
  assert (Hp : padded =
               (ll_x - (ur_x - ll_x) * default_padding,
                ur_x + (ur_x - ll_x) * default_padding,
                ll_y - (ur_y - ll_y) * default_padding,
                ur_y + (ur_y - ll_y) * default_padding)).
  { unfold padded, W, H, default_padding.
    now rewrite (Qmult_comm_eq 0.025 (ur_x - ll_x)),
                (Qmult_comm_eq 0.025 (ur_y - ll_y)). }
  split.
  - apply new_calls_app. unfold _add_padding. rewrite He, Hp.
    apply render_trace.
  - intros title show w1 e Hin.
    apply plot_calls_incl in Hin. destruct Hin as [fw Hin].
    apply set_extent_in_script in Hin. rewrite He in Hin. now rewrite Hp.
Qed.

Lemma padding_sets_extent_witness :
  new_calls empty_world
    (snd (_add_padding sample_env sample_plot default_padding empty_world)) =
    [SetExtent (0 - 0.025 * (0 + Py.float_of_nat 4 * 1 - 0),
                0 + Py.float_of_nat 4 * 1 + 0.025 * (0 + Py.float_of_nat 4 * 1 - 0),
                0 - 0.025 * (0 + Py.float_of_nat 4 * 1 - 0),
                0 + Py.float_of_nat 4 * 1 + 0.025 * (0 + Py.float_of_nat 4 * 1 - 0))] /\
  (forall title show w1 e,
      In (SetExtent e)
         (new_calls w1 (snd (plot sample_env sample_plot title show w1))) ->
      e = (0 - 0.025 * (0 + Py.float_of_nat 4 * 1 - 0),
           0 + Py.float_of_nat 4 * 1 + 0.025 * (0 + Py.float_of_nat 4 * 1 - 0),
           0 - 0.025 * (0 + Py.float_of_nat 4 * 1 - 0),
           0 + Py.float_of_nat 4 * 1 + 0.025 * (0 + Py.float_of_nat 4 * 1 - 0))).
Proof.
  apply (@padding_sets_extent sample_env sample_plot empty_world
           0 (0 + Py.float_of_nat 4 * 1) 0 (0 + Py.float_of_nat 4 * 1)).
  reflexivity.
Defined.

(** A 4 by 4 degree extent is padded by a tenth of a degree on each side. *)
Example sample_padding :
  exists e,
    new_calls empty_world
      (snd (_add_padding sample_env sample_plot default_padding empty_world)) =
      [SetExtent e] /\
    let '(a, b, c, d) := e in a == -0.1 /\ b == 4.1 /\ c == -0.1 /\ d == 4.1.
Proof. eexists. split; [cbv; reflexivity|repeat split]. Qed.

(** ** Rendering: saving and releasing *)

Lemma prefix_of_snoc (pre post body : list call) (c x : call) :
  (pre ++ c :: post = body ++ [x])%list -> exists rest, body = (pre ++ rest)%list.
Proof.
  revert body. induction pre as [|a pre IH]; intros body H.
  - now exists body.
  - destruct body as [|b body]; simpl in H.
    + injection H as _ H. destruct pre; discriminate.
    + injection H as -> H. destruct (IH _ H) as [rest ->]. now exists rest.
Qed.

(** Calls that neither open nor release a figure leave the count alone. *)
Lemma open_figures_neutral (env : Env) (l : list call) :
  (forall c, In c l ->
     (forall sz, c <> PltFigure sz) /\ (c = PltClose -> render_ok env c = false)) ->
  forall held, open_figures env l held = held.
Proof.
  induction l as [|c l IH]; intros Hl held; [reflexivity|].
  assert (Hc := Hl c (or_introl eq_refl)).
  assert (IH' := IH (fun c' H => Hl c' (or_intror H))).
  destruct c; simpl; try apply IH'.
  - destruct Hc as [Hc _]. now elim (Hc figsize).
  - destruct Hc as [_ Hc]. rewrite (Hc eq_refl). apply IH'.
Qed.

Lemma open_figures_app (env : Env) (l1 l2 : list call) :
  forall held,
    open_figures env (l1 ++ l2) held = open_figures env l2 (open_figures env l1 held).
Proof.
  induction l1 as [|c l1 IH]; intro held; [reflexivity|].
  destruct c; simpl; apply IH.
Qed.

Lemma script_shape (env : Env) (self : Plot) (title : string) (show : bool)
    (fig_width : Q) :
  let before := (plot_head env self fig_width ++ [SetTitle title])%list in
  let script := (plot_head env self fig_width ++ plot_tail self title show)%list in
  script = (before ++ (if show then [PltShow] else [])
              ++ [PltSavefig (_output_path self); PltClose])%list /\
  ~ In PltShow before /\
  (forall p, ~ In (PltSavefig p) before) /\
  ~ In PltClose before /\
  (exists mid,
      script = (PltFigure (fig_width, 8) :: mid ++ [PltClose])%list /\
      forall c, In c mid -> c <> PltClose /\ forall sz, c <> PltFigure sz).
Proof.
  unfold plot_head, plot_tail.
  destruct (_img_extent self) as [[[ll_x ur_x] ll_y] ur_y].
  cbv zeta. split; [|split; [|split; [|split]]].
  - destruct show; reflexivity.
  - simpl. intuition discriminate.
  - intro p. simpl. intuition discriminate.
  - simpl. intuition discriminate.
  - destruct show.
    + eexists (_ :: _ :: _ :: _ :: _ :: _ :: _ :: _ :: _ :: _ :: _ :: _ :: _
                 :: [_]).
      split; [reflexivity|].
      intros c Hc. simpl in Hc.
      repeat (destruct Hc as [<-|Hc]; [split; [|intro]; discriminate|]).
      contradiction.
    + eexists (_ :: _ :: _ :: _ :: _ :: _ :: _ :: _ :: _ :: _ :: _ :: _
                 :: [_]).
      split; [reflexivity|].
      intros c Hc. simpl in Hc.
      repeat (destruct Hc as [<-|Hc]; [split; [|intro]; discriminate|]).
      contradiction.
Qed.

(** C8, as stated, fails: when the target path cannot be written, the save
    is attempted and raises, [plt.close] is never reached and the figure
    stays open; nothing is persisted. *)
Lemma close_skipped_when_save_raises :
  let r := plot readonly_env sample_plot "" false empty_world in
  fst r = Err (Raised (PltSavefig "plots/276.png")) /\
  ~ In PltClose (trace (snd r)) /\
  open_figures readonly_env (trace (snd r)) 0 = 1%nat.
Proof.
  cbv zeta. split; [reflexivity|]. split; [|reflexivity].
  cbv. intuition discriminate.
Qed.

(** C8, amended.  A render call in which every library call returns saves
    the figure to the render target path after the optional synchronous
    display, whether or not the display was requested, and then closes the
    figure, so no figure stays open.  A render call in which the division or
    a library call raises stops there: the exception propagates, the raising
    call is the last one made, [plt.close] has not run, and a figure that
    was opened is still open.  When the
    extent height is not zero and no library call raises, the call
    returns. *)
Theorem save_then_close (env : Env) (self : Plot) (title : string)
    (show : bool) (w : World) :
  let r := plot env self title show w in
  let issued := new_calls w (snd r) in
  (fst r = Ok tt ->
   exists before,
     issued = (before ++ (if show then [PltShow] else [])
                 ++ [PltSavefig (_output_path self); PltClose])%list /\
     ~ In PltShow before /\
     (forall p, ~ In (PltSavefig p) before) /\
     ~ In PltClose before /\
     open_figures env issued 0 = 0%nat) /\
  (forall e, fst r = Err e ->
     (e = ZeroDivisionError /\ issued = []) \/
     (exists before c,
         e = Raised c /\ render_ok env c = false /\
         issued = (before ++ [c])%list /\
         forallb (render_ok env) before = true /\
         ~ In PltClose before /\
         ((forall sz, c <> PltFigure sz) -> open_figures env issued 0 = 1%nat))) /\
  ((forall c, render_ok env c = true) ->
   (let '(ll_x, ur_x, ll_y, ur_y) := _img_extent self in ~ ur_y - ll_y == 0) ->
   fst r = Ok tt).
Proof.
  cbv zeta. rewrite plot_unfold.
  destruct (_img_extent self) as [[[ll_x ur_x] ll_y] ur_y] eqn:He.
  destruct (Qeq_bool (ur_y - ll_y) 0) eqn:Hz.
  - split; [discriminate|]. split.
    + intros e [= <-]. left. split; [reflexivity|].
      unfold new_calls. simpl. apply skipn_all.
    + intros _ Hnz. apply Qeq_bool_iff in Hz. contradiction.
  - set (fw := 8 * (ur_x - ll_x) / (ur_y - ll_y)).
    rewrite (@new_calls_app w _ _ (run_calls_trace env _ w)).
    destruct (script_shape env self title show fw)
      as (Hshape & Hshow & Hsave & Hclose & mid & Hmid & Hneither).
    assert (Hneutral : forall l held,
               (forall c, In c l -> In c mid) -> open_figures env l held = held).
    { intros l held Hl. apply open_figures_neutral. intros c Hc.
      destruct (Hneither c (Hl c Hc)) as [Hnc Hnf]. split; [exact Hnf|].
      intro; contradiction. }
    split; [|split].
    + intro Hok. apply run_calls_ok in Hok.
      rewrite (attempted_all env _ Hok).
      exists (plot_head env self fw ++ [SetTitle title])%list.
      repeat split; try assumption.
      assert (Hall := proj1 (forallb_forall _ _) Hok).
      rewrite Hmid in Hall |- *. simpl.
      rewrite (Hall (PltFigure (fw, 8)) (or_introl eq_refl)).
      rewrite open_figures_app, (Hneutral mid) by auto. simpl.
      rewrite (Hall PltClose); [reflexivity|].
      right. apply in_or_app. right. now left.
    + intros e Herr. right.
      apply run_calls_err in Herr.
      destruct Herr as (pre & c & post & Hcs & Hpre & Hc & -> & Hatt).
      exists pre, c. rewrite Hatt. repeat split; try assumption.
      * rewrite Hmid in Hcs. rewrite app_comm_cons in Hcs.
        symmetry in Hcs. apply prefix_of_snoc in Hcs. destruct Hcs as [rest Hcs].
        intro Hin.
        assert (Hin' : In PltClose (PltFigure (fw, 8) :: mid)).
        { rewrite Hcs. apply in_or_app. now left. }
        destruct Hin' as [Hd|Hin']; [discriminate|].
        now destruct (Hneither _ Hin') as [Hn _].
      * intro Hnf. rewrite Hmid in Hcs.
        destruct pre as [|a pre]; simpl in Hcs.
        { injection Hcs as Hcs _. now elim (Hnf (fw, 8)). }
        injection Hcs as Ha Hcs. subst a. simpl in Hpre |- *.
        apply andb_true_iff in Hpre. destruct Hpre as [Hfig Hpre].
        rewrite Hfig.
        symmetry in Hcs. apply prefix_of_snoc in Hcs. destruct Hcs as [rest ->].
        rewrite open_figures_app, (Hneutral pre)
          by (intros x Hx; apply in_or_app; left; exact Hx).
        apply open_figures_neutral. intros x [<-|[]]. split; [exact Hnf|].
        intros _. exact Hc.
    + intros Hall Hnz. apply run_calls_ok.
      apply forallb_forall. intros c _. apply Hall.
Qed.

(** ** The colour ramp *)

(** C5. [set_colormap] with a ramp name the registry knows returns, and the
    object it leaves has the new ramp as its active one while its extent and
    its population grid are what they were; every later render call hands
    that ramp, the old extent and the old grid to the raster overlay. *)
Theorem set_colormap_keeps_extent_and_grid (env : Env) (self : Plot)
    (colormap : string) (cmap : Colormap) (w : World) :
  get_cmap env colormap = Some cmap ->
  exists self',
    set_colormap env self colormap w = (Ok self', w) /\
    _cmap self' = set_under cmap "0.8" /\
    cm_name (_cmap self') = cm_name cmap /\
    _img_extent self' = _img_extent self /\
    base self' = base self /\
    _population (base self') = _population (base self) /\
    _output_path self' = _output_path self /\
    (forall title show w1 d vmin vmax e c,
        In (Imshow d vmin vmax e c)
           (new_calls w1 (snd (plot env self' title show w1))) ->
        c = set_under cmap "0.8" /\
        e = _img_extent self /\
        d = _population (base self)).
Proof.
  intro Hc. exists (with_cmap self (set_under cmap "0.8")).
  split.
  - unfold set_colormap, cm_get_cmap, bind. now rewrite Hc.
  - repeat split; try reflexivity;
      apply plot_calls_incl in H; destruct H as [fw H];
      apply imshow_in_script in H; destruct H as (Hd & _ & _ & He & Hcm);
      assumption.
Qed.

Lemma set_colormap_keeps_extent_and_grid_witness :
  exists self',
    set_colormap sample_env sample_plot "viridis" empty_world = (Ok self', empty_world) /\
    _cmap self' = set_under {| cm_name := "viridis"; cm_under := None |} "0.8" /\
    cm_name (_cmap self') = "viridis" /\
    _img_extent self' = _img_extent sample_plot /\
    base self' = base sample_plot /\
    _population (base self') = _population (base sample_plot) /\
    _output_path self' = _output_path sample_plot /\
    (forall title show w1 d vmin vmax e c,
        In (Imshow d vmin vmax e c)
           (new_calls w1 (snd (plot sample_env self' title show w1))) ->
        c = set_under {| cm_name := "viridis"; cm_under := None |} "0.8" /\
        e = _img_extent sample_plot /\
        d = _population (base sample_plot)).
Proof.
  apply (@set_colormap_keeps_extent_and_grid sample_env sample_plot "viridis"
           {| cm_name := "viridis"; cm_under := None |} empty_world).
  reflexivity.
Defined.

(** An unregistered name raises and changes nothing. *)
Example unknown_ramp_raises :
  set_colormap sample_env sample_plot "no-such-ramp" empty_world =
    (Err (UnknownColormap "no-such-ramp"), empty_world).
Proof. reflexivity. Qed.

(** C6. Every call of [set_colormap], the default one made by [__init__]
    included, sets the under-range colour ["0.8"] again on the ramp it has
    just selected: a call with a registered name returns with that ramp and
    that colour, and so does a construction that gets as far as its default
    call.  Hence every object a client can hold carries the colour on its
    active ramp, and every render call that reaches the raster overlay
    passes it the ramp with that colour and the visible minimum 0, so that
    a library which paints values below the minimum in the ramp's under
    colour paints every cell below 0 in ["0.8"]. *)
Theorem under_colour_reapplied (env : Env) :
  (forall self colormap cmap w,
      get_cmap env colormap = Some cmap ->
      exists self',
        set_colormap env self colormap w = (Ok self', w) /\
        _cmap self' = set_under cmap "0.8" /\
        cm_name (_cmap self') = cm_name cmap /\
        cm_under (_cmap self') = Some "0.8") /\
  (forall self colormap w self' w',
      set_colormap env self colormap w = (Ok self', w') ->
      exists cmap,
        get_cmap env colormap = Some cmap /\
        _cmap self' = set_under cmap "0.8" /\
        cm_under (_cmap self') = Some "0.8") /\
  (forall country_id folder w pop cmap,
      folder <> "" ->
      (forall p, existsb (String.eqb p) (dirs w) = false -> mkdir_ok env p = true) ->
      population_init env country_id = Some pop ->
      get_cmap env default_colormap = Some cmap ->
      exists self w',
        __init__ env country_id folder w = (Ok self, w') /\
        _cmap self = set_under cmap "0.8" /\
        cm_under (_cmap self) = Some "0.8") /\
  (forall country_id folder w self w',
      __init__ env country_id folder w = (Ok self, w') ->
      exists cmap,
        get_cmap env default_colormap = Some cmap /\
        _cmap self = set_under cmap "0.8" /\
        cm_under (_cmap self) = Some "0.8") /\
  (forall self,
      reachable env self ->
      cm_under (_cmap self) = Some "0.8" /\
      forall title show w d vmin vmax e c,
        In (Imshow d vmin vmax e c)
           (new_calls w (snd (plot env self title show w))) ->
        vmin = 0 /\ c = _cmap self /\ cm_under c = Some "0.8" /\
        forall paint : Colormap -> Q -> Q -> Q -> string,
          (forall cm lo hi v colour,
              cm_under cm = Some colour -> v < lo -> paint cm lo hi v = colour) ->
          forall v, In v (cells d) -> v < 0 -> paint c vmin vmax v = "0.8") /\
  (forall self title show w ll_x ur_x ll_y ur_y,
      reachable env self ->
      _img_extent self = (ll_x, ur_x, ll_y, ur_y) ->
      ~ ur_y - ll_y == 0 ->
      forallb (render_ok env)
        (plot_setup self (8 * (ur_x - ll_x) / (ur_y - ll_y))) = true ->
      exists vmax later,
        new_calls w (snd (plot env self title show w)) =
          (plot_setup self (8 * (ur_x - ll_x) / (ur_y - ll_y))
           ++ Imshow (_population (base self)) 0 vmax (_img_extent self)
                (_cmap self)
              :: later)%list /\
        cm_under (_cmap self) = Some "0.8").
Proof.
  split; [|split; [|split; [|split; [|split]]]].
  - intros self colormap cmap w Hc.
    exists (with_cmap self (set_under cmap "0.8")).
    split; [|repeat split].
    unfold set_colormap, cm_get_cmap, bind. now rewrite Hc.
  - intros self colormap w self' w' H.
    apply set_colormap_inv in H. destruct H as (cmap & Hc & -> & _).
    now exists cmap.
  - intros cid folder w pop cmap Hne Hmk Hpop Hc.
    destruct (Py.last_char folder) as [last|] eqn:Hlast;
      [|apply last_char_none in Hlast; contradiction].
    destruct (init_returns env cid folder w Hlast Hmk Hpop Hc) as [w' Hrun].
    exists (built cid (folder_used folder last) pop cmap), w'.
    split; [exact Hrun|]. split; reflexivity.
  - intros cid folder w self w' H.
    apply init_ok_inv in H. destruct H as (last & pop & cmap & _ & _ & Hc & ->).
    now exists cmap.
  - intros self Hr. destruct (reachable_inv Hr) as [Hu _].
    split; [exact Hu|].
    intros title show w d vmin vmax e c H.
    apply plot_calls_incl in H. destruct H as [fw H].
    apply imshow_in_script in H. destruct H as (_ & -> & _ & _ & ->).
    repeat split; try assumption.
    intros paint Hpaint v _ Hv. now apply Hpaint.
  - intros self title show w ll_x ur_x ll_y ur_y Hr He Hnz Hok.
    destruct (reachable_inv Hr) as [Hu _].
    destruct (plot_reaches_imshow env self title show w He Hnz Hok) as [later H].
    exists (color_vmax env (_population (base self))), later.
    split; [exact H|exact Hu].
Qed.

(** Construction, a change of ramp and a render that fails at the save: the
    overlay still got the new ramp with ["0.8"] set on it. *)
Example under_colour_reaches_overlay :
  exists self w1 self' w2,
    __init__ sample_env 276 "plots" empty_world = (Ok self, w1) /\
    set_colormap sample_env self "viridis" w1 = (Ok self', w1) /\
    snd (plot readonly_env self' "" false w1) = w2 /\
    In (Imshow sample_grid 0 (11 # 2) (0, 4, 0, 4)
          {| cm_name := "viridis"; cm_under := Some "0.8" |})
       (trace w2).
Proof.
  eexists. eexists. eexists. eexists.
  split; [cbv; reflexivity|]. split; [cbv; reflexivity|].
  split; [reflexivity|]. cbv. tauto.
Qed.

(** The sample object is reachable, and stays so under a change of ramp. *)
Example sample_plot_reachable :
  reachable sample_env sample_plot /\
  reachable sample_env
    (with_cmap sample_plot {| cm_name := "Blues"; cm_under := Some "0.8" |}).
Proof.
  assert (H : reachable sample_env sample_plot).
  { apply (@reach_init sample_env 276 "plots/" empty_world sample_plot
             {| dirs := ["plots/"];
                trace := [OsPathExists "plots/"; OsMkdir "plots/";
                          PopulationInit 276] |}).
    reflexivity. }
  split; [exact H|].
  apply (@reach_set_colormap sample_env sample_plot "Blues" empty_world _ empty_world H).
  reflexivity.
Qed.

(** ** The figure size *)

(** C10. The figure width [plot] computes first is 8 times the extent width
    divided by the extent height, and it is the first thing handed to the
    plotting library.  When the extent height is zero the division raises
    [ZeroDivisionError] and nothing has been drawn; that is the case of
    every constructed object whose grid has no rows or whose cell size is
    zero. *)
Theorem figure_width_and_zero_height (env : Env) (self : Plot) (title : string)
    (show : bool) (w : World) :
  let '(ll_x, ur_x, ll_y, ur_y) := _img_extent self in
  let r := plot env self title show w in
  (~ ur_y - ll_y == 0 ->
   exists later,
     new_calls w (snd r) =
       PltFigure (8 * (ur_x - ll_x) / (ur_y - ll_y), 8) :: later) /\
  (ur_y - ll_y == 0 -> r = (Err ZeroDivisionError, w)) /\
  (reachable env self ->
   n_row (_population (base self)) = 0%nat \/ _cellsize (base self) == 0 ->
   ur_y - ll_y == 0 /\ r = (Err ZeroDivisionError, w)).
Proof.
  destruct (_img_extent self) as [[[ll_x ur_x] ll_y] ur_y] eqn:He.
  cbv zeta.
  assert (Hzero : ur_y - ll_y == 0 ->
                  plot env self title show w = (Err ZeroDivisionError, w)).
  { intro Hz. exact (plot_zero_height env self title show w He Hz). }
  split; [|split].
  - intro Hnz.
    rewrite (plot_nonzero_height env self title show w He Hnz).
    rewrite (@new_calls_app w _ _ (run_calls_trace env _ w)).
    unfold plot_head. rewrite He. simpl. eexists. reflexivity.
  - exact Hzero.
  - intros Hr Hdeg.
    assert (Hz : ur_y - ll_y == 0).
    { destruct (reachable_inv Hr) as [_ Hext]. rewrite He in Hext.
      injection Hext as _ _ -> ->.
      destruct Hdeg as [-> | Hc].
      - unfold Py.float_of_nat. simpl. ring.
      - rewrite Hc. ring. }
    split; [exact Hz|exact (Hzero Hz)].
Qed.

(** A grid without rows: construction succeeds, rendering raises at once. *)
Example rowless_grid_cannot_be_rendered :
  exists self w',
    __init__ rowless_env 1 "plots/" empty_world = (Ok self, w') /\
    _img_extent self = (5, 8, 47, 47) /\
    plot rowless_env self "" false w' = (Err ZeroDivisionError, w').
Proof. eexists. eexists. split; [cbv; reflexivity|split; reflexivity]. Qed.

(** [main] in the sample world: Germany is built in the default folder and
    rendered without display. *)
Example main_runs :
  exists w,
    main sample_env empty_world = (Ok tt, w) /\
    dirs w = ["./plots/"] /\
    last (trace w) PltShow = PltClose /\
    In (PltSavefig "./plots/276.png") (trace w) /\
    ~ In PltShow (trace w).
Proof.
  eexists. split; [cbv; reflexivity|].
  split; [reflexivity|]. split; [reflexivity|].
  split; simpl; intuition discriminate.
Qed.

(** The sample grid is square, so the figure is 8 by 8. *)
Example sample_figure_size :
  exists w, plot sample_env sample_plot "" false empty_world = (Ok tt, w) /\
            hd_error (trace w) = Some (PltFigure (32 # 4, 8)) /\
            32 # 4 == 8.
Proof. eexists. split; [cbv; reflexivity|split; reflexivity]. Qed.

(** * Further properties of the module *)

(** ** Strings and target paths *)

Lemma append_assoc_s (a b c : string) : (a ++ b) ++ c = a ++ b ++ c.
Proof. induction a as [|x a IH]; simpl; [reflexivity|now rewrite IH]. Qed.

Lemma append_length_s (a b : string) :
  String.length (a ++ b) = (String.length a + String.length b)%nat.
Proof. induction a as [|x a IH]; simpl; [reflexivity|now rewrite IH]. Qed.

Lemma append_cancel_l (p a b : string) : p ++ a = p ++ b -> a = b.
Proof. induction p as [|x p IH]; simpl; [auto|]. intros [= H]. auto. Qed.

Lemma append_cancel_r (t a b : string) : a ++ t = b ++ t -> a = b.
Proof.
  revert b. induction a as [|x a IH]; intros [|y b] H; simpl in H.
  - reflexivity.
  - apply (f_equal String.length) in H. simpl in H.
    rewrite append_length_s in H. lia.
  - apply (f_equal String.length) in H. simpl in H.
    rewrite append_length_s in H. lia.
  - injection H as -> H. f_equal. auto.
Qed.

(** [str] loses nothing: the integer can be read back from its decimal
    form. *)
Lemma str_read_back (n : Z) :
  option_map Z.of_int (NilZero.int_of_string (Py.str n)) = Some n.
Proof.
  unfold Py.str. rewrite NilZero.isi.
  - simpl. now rewrite DecimalZ.of_to.
  - destruct n; simpl; try discriminate.
    intros [= H]. now apply DecimalPos.Unsigned.to_uint_nonnil in H.
  - destruct n; simpl; try discriminate.
    intros [= H]. now apply DecimalPos.Unsigned.to_uint_nonnil in H.
Qed.

Lemma str_inj (a b : Z) : Py.str a = Py.str b -> a = b.
Proof.
  intro H. assert (Ha := str_read_back a). rewrite H, str_read_back in Ha.
  now injection Ha.
Qed.

Lemma folder_used_ends_with_separator (folder : string) (last : ascii) :
  Py.last_char folder = Some last ->
  ends_with_separator (folder_used folder last).
Proof.
  intro Hlast. unfold folder_used.
  destruct (Ascii.eqb last "/") eqn:E.
  - apply Ascii.eqb_eq in E. subst last. now apply ends_with_separator_iff.
  - now exists folder.
Qed.

Lemma folder_used_fixed (folder : string) (last : ascii) :
  Py.last_char folder = Some last ->
  Py.last_char (folder_used folder last) = Some "/"%char /\
  folder_used (folder_used folder last) "/" = folder_used folder last.
Proof.
  intro Hlast. split; [|reflexivity].
  apply ends_with_separator_iff. now apply folder_used_ends_with_separator.
Qed.

(** X1. Two objects built in the same folder for different country
    identifiers have different target paths: one country's image never
    overwrites another's. *)
Theorem distinct_countries_distinct_paths (env : Env) (folder : string)
    (cid1 cid2 : Z) (w1 w2 w1' w2' : World) (self1 self2 : Plot) :
  __init__ env cid1 folder w1 = (Ok self1, w1') ->
  __init__ env cid2 folder w2 = (Ok self2, w2') ->
  cid1 <> cid2 ->
  _output_path self1 <> _output_path self2.
Proof.
  intros H1 H2 Hne Hp. apply Hne.
  apply init_ok_inv in H1. destruct H1 as (l1 & p1 & c1 & Hl1 & _ & _ & ->).
  apply init_ok_inv in H2. destruct H2 as (l2 & p2 & c2 & Hl2 & _ & _ & ->).
  rewrite Hl1 in Hl2. injection Hl2 as <-. simpl in Hp.
  apply append_cancel_l, append_cancel_r in Hp. now apply str_inj.
Qed.

Lemma distinct_countries_distinct_paths_witness :
  _output_path (built 4 "plots/" flipped_population
                  {| cm_name := "Purples"; cm_under := None |}) <>
  _output_path (built 40 "plots/" flipped_population
                  {| cm_name := "Purples"; cm_under := None |}).
Proof.
  apply (@distinct_countries_distinct_paths flipped_env "plots" 4 40
           empty_world empty_world
           {| dirs := ["plots/"];
              trace := [OsPathExists "plots/"; OsMkdir "plots/";
                        PopulationInit 4] |}
           {| dirs := ["plots/"];
              trace := [OsPathExists "plots/"; OsMkdir "plots/";
                        PopulationInit 40] |}).
  - reflexivity.
  - reflexivity.
  - discriminate.
Defined.

(** X2. Passing a non-empty folder without its trailing separator is the
    same as passing it with the separator: result, directories and logged
    calls coincide. *)
Theorem separator_is_optional (env : Env) (country_id : Z) (folder : string)
    (w : World) :
  folder <> "" ->
  ~ ends_with_separator folder ->
  __init__ env country_id (folder ++ "/") w = __init__ env country_id folder w.
Proof.
  intros Hne Hsep.
  destruct (Py.last_char folder) as [last|] eqn:Hlast;
    [|apply last_char_none in Hlast; contradiction].
  rewrite !init_unfold, last_char_app_sep, Hlast.
  assert (Hu : folder_used folder last = folder ++ "/").
  { unfold folder_used. destruct (Ascii.eqb last "/") eqn:E; [|reflexivity].
    apply Ascii.eqb_eq in E. subst last.
    apply ends_with_separator_iff in Hlast. contradiction. }
  rewrite Hu. reflexivity.
Qed.

Lemma separator_is_optional_witness :
  __init__ sample_env 276 ("plots" ++ "/") empty_world =
  __init__ sample_env 276 "plots" empty_world.
Proof.
  apply (@separator_is_optional sample_env 276 "plots" empty_world).
  - discriminate.
  - intros [stem H]. apply (f_equal Py.last_char) in H.
    rewrite last_char_app_sep in H. discriminate.
Defined.

(** X3. What every object a client can hold satisfies: its folder ends with
    the separator, its target path is that folder followed by the decimal
    country identifier and [".png"], its grid is the one the loader gives
    for its country identifier, and its stored extent is the one
    [_compute_image_extent] computes from that grid. *)
Theorem reachable_object_invariants (env : Env) (self : Plot) :
  reachable env self ->
  ends_with_separator (plot_folder self) /\
  _output_path self = plot_folder self ++ Py.str (_country_id self) ++ ".png" /\
  population_init env (_country_id self) = Some (base self) /\
  _img_extent (_compute_image_extent self) = _img_extent self.
Proof.
  induction 1 as [cid folder w self w' H | self name w self' w' Hr IH H].
  - apply init_ok_inv in H.
    destruct H as (last & pop & cmap & Hlast & Hpop & _ & ->).
    repeat split; try assumption.
    simpl. now apply folder_used_ends_with_separator.
  - apply set_colormap_inv in H. destruct H as (cmap & _ & -> & _).
    exact IH.
Qed.

Lemma reachable_object_invariants_witness :
  ends_with_separator (plot_folder sample_plot) /\
  _output_path sample_plot =
    plot_folder sample_plot ++ Py.str (_country_id sample_plot) ++ ".png" /\
  population_init sample_env (_country_id sample_plot) = Some (base sample_plot) /\
  _img_extent (_compute_image_extent sample_plot) = _img_extent sample_plot.
Proof.
  apply (@reachable_object_invariants sample_env sample_plot).
  apply (@reach_init sample_env 276 "plots/" empty_world sample_plot
           {| dirs := ["plots/"];
              trace := [OsPathExists "plots/"; OsMkdir "plots/";
                        PopulationInit 276] |}).
  reflexivity.
Defined.

(** ** Construction and the file system *)

Lemma init_after_folder_dirs (env : Env) (country_id : Z) (folder : string)
    (w : World) :
  dirs (snd (init_after_folder env country_id folder w)) = dirs w.
Proof.
  unfold init_after_folder.
  destruct (population_init env country_id); [|reflexivity].
  destruct (get_cmap env default_colormap); reflexivity.
Qed.

Lemma existsb_eqb_head (p : string) (l : list string) :
  existsb (String.eqb p) (p :: l) = true.
Proof. simpl. now rewrite String.eqb_refl. Qed.

(** X4. The log of a construction that returns is: the existence test on
    the normalised folder, [mkdir] on it exactly when it was missing, one
    load of the population, in that order; no other file-system, loader or
    plotting call is in it.  The folder exists afterwards, no other
    directory was added, the registry knew the default ramp (a look-up the
    log does not show), and a further construction in the same folder does
    not call [mkdir] again. *)
Theorem construction_effects (env : Env) (country_id : Z) (folder : string)
    (w w' : World) (self : Plot) :
  __init__ env country_id folder w = (Ok self, w') ->
  let nf := plot_folder self in
  let existed := existsb (String.eqb nf) (dirs w) in
  new_calls w w' =
    (OsPathExists nf :: (if existed then [] else [OsMkdir nf])
       ++ [PopulationInit country_id])%list /\
  dirs w' = (if existed then dirs w else nf :: dirs w) /\
  existsb (String.eqb nf) (dirs w') = true /\
  (exists cmap,
      get_cmap env default_colormap = Some cmap /\
      _cmap self = set_under cmap "0.8") /\
  (forall other_id p,
      ~ In (OsMkdir p)
           (new_calls w' (snd (__init__ env other_id folder w')))).
Proof.
  intro H. assert (Hinv := init_ok_inv _ _ _ _ H).
  destruct Hinv as (last & pop & cmap & Hlast & Hpop & Hcm & Hself).
  assert (Hnf : plot_folder self = folder_used folder last) by now subst self.
  cbv zeta. rewrite Hnf. set (nf := folder_used folder last).
  rewrite init_unfold, Hlast in H. cbv zeta in H. fold nf in H.
  assert (Hafter : forall w0,
             init_after_folder env country_id nf w0 = (Ok self, w') ->
             trace w' = (trace w0 ++ [PopulationInit country_id])%list /\
             dirs w' = dirs w0).
  { intros w0 H0. split.
    - rewrite <- (init_after_folder_trace env country_id nf w0). now rewrite H0.
    - rewrite <- (init_after_folder_dirs env country_id nf w0). now rewrite H0. }
  assert (Hfirst :
            new_calls w w' =
              (OsPathExists nf
                 :: (if existsb (String.eqb nf) (dirs w) then [] else [OsMkdir nf])
                 ++ [PopulationInit country_id])%list /\
            dirs w' = (if existsb (String.eqb nf) (dirs w)
                       then dirs w else nf :: dirs w)).
  { destruct (existsb (String.eqb nf) (dirs w)) eqn:Hex.
    - apply Hafter in H. destruct H as [Ht Hd]. split; [|exact Hd].
      apply new_calls_app. rewrite Ht. simpl. now rewrite <- app_assoc.
    - destruct (mkdir_ok env nf); [|discriminate].
      apply Hafter in H. destruct H as [Ht Hd]. split; [|exact Hd].
      apply new_calls_app. rewrite Ht. simpl. now rewrite <- !app_assoc. }
  destruct Hfirst as [Hcalls Hdirs].
  assert (Hnow : existsb (String.eqb nf) (dirs w') = true).
  { rewrite Hdirs. destruct (existsb (String.eqb nf) (dirs w)) eqn:Hex;
      [exact Hex|apply existsb_eqb_head]. }
  split; [exact Hcalls|]. split; [exact Hdirs|]. split; [exact Hnow|].
  split; [exists cmap; split; [exact Hcm|now rewrite Hself]|].
  intros other_id p. rewrite init_unfold, Hlast. cbv zeta. fold nf.
  rewrite Hnow.
  rewrite (@new_calls_app w' _ [OsPathExists nf; PopulationInit other_id]).
  - simpl. intuition discriminate.
  - rewrite init_after_folder_trace. simpl. now rewrite <- app_assoc.
Qed.

Lemma construction_effects_witness :
  let w' := {| dirs := ["plots/"];
               trace := [OsPathExists "plots/"; OsMkdir "plots/";
                         PopulationInit 276] |} in
  let nf := plot_folder sample_plot in
  let existed := existsb (String.eqb nf) (dirs empty_world) in
  new_calls empty_world w' =
    (OsPathExists nf :: (if existed then [] else [OsMkdir nf])
       ++ [PopulationInit 276])%list /\
  dirs w' = (if existed then dirs empty_world else nf :: dirs empty_world) /\
  existsb (String.eqb nf) (dirs w') = true /\
  (exists cmap,
      get_cmap sample_env default_colormap = Some cmap /\
      _cmap sample_plot = set_under cmap "0.8") /\
  (forall other_id p,
      ~ In (OsMkdir p)
           (new_calls w' (snd (__init__ sample_env other_id "plots" w')))).
Proof.
  apply (@construction_effects sample_env 276 "plots" empty_world _ sample_plot).
  reflexivity.
Defined.

Lemma folder_used_cases (folder : string) (last : ascii) :
  Py.last_char folder = Some last ->
  (ends_with_separator folder -> folder_used folder last = folder) /\
  (~ ends_with_separator folder -> folder_used folder last = folder ++ "/").
Proof.
  intro Hlast. unfold folder_used. split; intro Hsep.
  - apply ends_with_separator_iff in Hsep. rewrite Hlast in Hsep.
    injection Hsep as ->. reflexivity.
  - destruct (Ascii.eqb last "/") eqn:E; [|reflexivity].
    apply Ascii.eqb_eq in E. subst last.
    apply ends_with_separator_iff in Hlast. contradiction.
Qed.

(** X5. A construction that raises does so for one of four reasons, and the
    exception tells how far it got.  [IndexError]: the folder was empty and
    nothing happened.  Otherwise, with the normalised folder (the folder
    itself, or the folder plus the separator when that was missing): a
    raising [mkdir] means the folder was missing, nothing was loaded and no
    directory was added; a raising loader or an unregistered default ramp
    means the folder had been tested and, if missing, created before the
    load, and that very folder stays on disk although no object was
    built. *)
Theorem construction_failures (env : Env) (country_id : Z) (folder : string)
    (w w' : World) (e : exn) :
  __init__ env country_id folder w = (Err e, w') ->
  (e = IndexError /\ folder = "" /\ w' = w) \/
  (exists nf,
      folder <> "" /\
      (ends_with_separator folder -> nf = folder) /\
      (~ ends_with_separator folder -> nf = folder ++ "/") /\
      let existed := existsb (String.eqb nf) (dirs w) in
      ((e = Raised (OsMkdir nf) /\
        existed = false /\
        mkdir_ok env nf = false /\
        dirs w' = dirs w /\
        new_calls w w' = [OsPathExists nf; OsMkdir nf])
       \/
       ((e = Raised (PopulationInit country_id) /\
         population_init env country_id = None
         \/
         e = UnknownColormap default_colormap /\
         population_init env country_id <> None /\
         get_cmap env default_colormap = None) /\
        new_calls w w' =
          (OsPathExists nf :: (if existed then [] else [OsMkdir nf])
             ++ [PopulationInit country_id])%list /\
        dirs w' = (if existed then dirs w else nf :: dirs w) /\
        existsb (String.eqb nf) (dirs w') = true))).
Proof.
  rewrite init_unfold.
  destruct (Py.last_char folder) as [last|] eqn:Hlast.
  2:{ intros [= <- <-]. left. apply last_char_none in Hlast. auto. }
  cbv zeta. intro H. right. exists (folder_used folder last).
  destruct (folder_used_cases folder Hlast) as [Hsep Hnosep].
  split; [intros ->; discriminate|]. split; [exact Hsep|]. split; [exact Hnosep|].
  clear Hsep Hnosep. set (nf := folder_used folder last) in *.
  assert (Hafter : forall w0,
             init_after_folder env country_id nf w0 = (Err e, w') ->
             (e = Raised (PopulationInit country_id) /\
              population_init env country_id = None
              \/
              e = UnknownColormap default_colormap /\
              population_init env country_id <> None /\
              get_cmap env default_colormap = None) /\
             trace w' = (trace w0 ++ [PopulationInit country_id])%list /\
             dirs w' = dirs w0).
  { intros w0 H0.
    assert (Ht := init_after_folder_trace env country_id nf w0).
    assert (Hd := init_after_folder_dirs env country_id nf w0).
    rewrite H0 in Ht, Hd. simpl in Ht, Hd.
    split; [|split; assumption].
    unfold init_after_folder in H0.
    destruct (population_init env country_id) as [pop|].
    - destruct (get_cmap env default_colormap); [discriminate|].
      injection H0 as <- _. right. repeat split. discriminate.
    - injection H0 as <- _. now left. }
  destruct (existsb (String.eqb nf) (dirs w)) eqn:Hex.
  - right. apply Hafter in H. destruct H as (He & Ht & Hd).
    split; [exact He|]. split; [|split].
    + apply new_calls_app. rewrite Ht. simpl. now rewrite <- app_assoc.
    + exact Hd.
    + rewrite Hd. exact Hex.
  - destruct (mkdir_ok env nf) eqn:Hmk.
    + right. apply Hafter in H. destruct H as (He & Ht & Hd).
      split; [exact He|]. split; [|split].
      * apply new_calls_app. rewrite Ht. simpl. now rewrite <- !app_assoc.
      * exact Hd.
      * rewrite Hd. apply existsb_eqb_head.
    + left. injection H as <- <-.
      split; [reflexivity|]. split; [reflexivity|]. split; [reflexivity|].
      split; [reflexivity|].
      apply new_calls_app. simpl. now rewrite <- app_assoc.
Qed.

Lemma construction_failures_witness :
  let e := Raised (PopulationInit 275) in
  let w := empty_world in
  let w' := {| dirs := ["plots/"];
               trace := [OsPathExists "plots/"; OsMkdir "plots/";
                         PopulationInit 275] |} in
  (e = IndexError /\ "plots" = "" /\ w' = w) \/
  (exists nf,
      "plots" <> "" /\
      (ends_with_separator "plots" -> nf = "plots") /\
      (~ ends_with_separator "plots" -> nf = "plots" ++ "/") /\
      let existed := existsb (String.eqb nf) (dirs w) in
      ((e = Raised (OsMkdir nf) /\
        existed = false /\
        mkdir_ok sample_env nf = false /\
        dirs w' = dirs w /\
        new_calls w w' = [OsPathExists nf; OsMkdir nf])
       \/
       ((e = Raised (PopulationInit 275) /\
         population_init sample_env 275 = None
         \/
         e = UnknownColormap default_colormap /\
         population_init sample_env 275 <> None /\
         get_cmap sample_env default_colormap = None) /\
        new_calls w w' =
          (OsPathExists nf :: (if existed then [] else [OsMkdir nf])
             ++ [PopulationInit 275])%list /\
        dirs w' = (if existed then dirs w else nf :: dirs w) /\
        existsb (String.eqb nf) (dirs w') = true))).
Proof.
  apply (@construction_failures sample_env 275 "plots" empty_world).
  reflexivity.
Defined.

(** An unknown country leaves the freshly made folder behind. *)
Example unknown_country_leaves_folder :
  __init__ sample_env 275 "plots" empty_world =
    (Err (Raised (PopulationInit 275)),
     {| dirs := ["plots/"];
        trace := [OsPathExists "plots/"; OsMkdir "plots/"; PopulationInit 275] |}).
Proof. reflexivity. Qed.

(** ** Changing the ramp *)

(** X6. The ramp chosen last wins: after a [set_colormap] that returned, a
    second [set_colormap] behaves exactly as if the first had never been
    made. *)
Theorem set_colormap_last_wins (env : Env) (self self1 : Plot)
    (first second : string) (w w1 : World) :
  set_colormap env self first w = (Ok self1, w1) ->
  set_colormap env self1 second w1 = set_colormap env self second w.
Proof.
  intro H. apply set_colormap_inv in H. destruct H as (cmap & _ & -> & ->).
  unfold set_colormap, cm_get_cmap, bind.
  destruct (get_cmap env second); reflexivity.
Qed.

Lemma set_colormap_last_wins_witness :
  set_colormap sample_env
    (with_cmap sample_plot {| cm_name := "viridis"; cm_under := Some "0.8" |})
    "Blues" empty_world =
  set_colormap sample_env sample_plot "Blues" empty_world.
Proof.
  apply (@set_colormap_last_wins sample_env sample_plot _ "viridis" "Blues"
           empty_world empty_world).
  reflexivity.
Defined.

(** ** Rendering and the outside world *)

Lemma run_calls_dirs (env : Env) (cs : list call) :
  forall w, dirs (snd (run_calls env cs w)) = dirs w.
Proof.
  induction cs as [|c cs IH]; intro w; simpl; [reflexivity|].
  unfold bind, render. destruct (render_ok env c); simpl; [|reflexivity].
  now rewrite IH.
Qed.

Lemma plot_trace (env : Env) (self : Plot) (title : string) (show : bool)
    (w : World) :
  trace (snd (plot env self title show w)) =
    (trace w ++ new_calls w (snd (plot env self title show w)))%list /\
  dirs (snd (plot env self title show w)) = dirs w.
Proof.
  rewrite plot_unfold.
  destruct (_img_extent self) as [[[ll_x ur_x] ll_y] ur_y].
  destruct (Qeq_bool (ur_y - ll_y) 0).
  - simpl. unfold new_calls. rewrite skipn_all, app_nil_r. auto.
  - rewrite (@new_calls_app w _ _ (run_calls_trace env _ w)).
    split; [apply run_calls_trace|apply run_calls_dirs].
Qed.

Lemma script_calls_only_plotting (env : Env) (self : Plot) (title : string)
    (show : bool) (fig_width : Q) (c : call) :
  In c (plot_head env self fig_width ++ plot_tail self title show) ->
  match c with
  | OsPathExists _ | OsMkdir _ | PopulationInit _ => False
  | PltShow => show = true
  | PltSavefig p => p = _output_path self
  | SetTitle t => t = title
  | _ => True
  end.
Proof.
  unfold plot_head, plot_tail.
  destruct (_img_extent self) as [[[ll_x ur_x] ll_y] ur_y].
  destruct show; simpl; intro H;
    repeat (destruct H as [<-|H]; [try exact I; reflexivity|]);
    contradiction.
Qed.

(** X7. Among the calls [plot] makes there is no existence test, no
    [mkdir] and no load; it calls [plt.show] only when asked to, saves only
    to the object's target path and sets only the title it was given.  In a
    call that returns these are exactly the ones made: [plt.show] if and
    only if it was asked for, the given title and the target path. *)
Theorem plot_only_plots (env : Env) (self : Plot) (title : string)
    (show : bool) (w : World) :
  let issued := new_calls w (snd (plot env self title show w)) in
  (forall c, In c issued ->
     match c with
     | OsPathExists _ | OsMkdir _ | PopulationInit _ => False
     | PltShow => show = true
     | PltSavefig p => p = _output_path self
     | SetTitle t => t = title
     | _ => True
     end) /\
  (fst (plot env self title show w) = Ok tt ->
   (In PltShow issued <-> show = true) /\
   (forall t, In (SetTitle t) issued <-> t = title) /\
   (forall p, In (PltSavefig p) issued <-> p = _output_path self)).
Proof.
  cbv zeta.
  assert (Hsafe : forall c,
             In c (new_calls w (snd (plot env self title show w))) ->
             match c with
             | OsPathExists _ | OsMkdir _ | PopulationInit _ => False
             | PltShow => show = true
             | PltSavefig p => p = _output_path self
             | SetTitle t => t = title
             | _ => True
             end).
  { intros c Hc. apply plot_calls_incl in Hc. destruct Hc as [fw Hc].
    exact (script_calls_only_plotting env self title show fw c Hc). }
  split; [exact Hsafe|].
  intro Hok.
  assert (Hall : forall fw c,
             In c (plot_tail self title show) ->
             new_calls w (snd (plot env self title show w)) =
               (plot_head env self fw ++ plot_tail self title show)%list ->
             In c (new_calls w (snd (plot env self title show w)))).
  { intros fw c Hc ->. apply in_or_app. now right. }
  assert (Hscript : exists fw,
             new_calls w (snd (plot env self title show w)) =
               (plot_head env self fw ++ plot_tail self title show)%list).
  { revert Hok. rewrite plot_unfold.
    destruct (_img_extent self) as [[[ll_x ur_x] ll_y] ur_y].
    destruct (Qeq_bool (ur_y - ll_y) 0); [discriminate|].
    intro Hok. apply run_calls_ok in Hok.
    rewrite (@new_calls_app w _ _ (run_calls_trace env _ w)).
    rewrite (attempted_all env _ Hok). eexists. reflexivity. }
  destruct Hscript as [fw Hscript].
  split; [|split].
  - split; [apply (Hsafe PltShow)|].
    intros ->. apply (Hall fw); [|exact Hscript]. simpl. auto.
  - intro t. split; [apply (Hsafe (SetTitle t))|].
    intros ->. apply (Hall fw); [|exact Hscript]. simpl. auto.
  - intro p. split; [apply (Hsafe (PltSavefig p))|].
    intros ->. apply (Hall fw); [|exact Hscript].
    unfold plot_tail. destruct show; simpl; auto.
Qed.

Lemma stop_before_last_two (pre post body : list call) (c s z : call) :
  (pre ++ c :: post = body ++ [s; z])%list ->
  (c = z /\ pre = (body ++ [s])%list) \/
  (c = s /\ pre = body) \/
  (exists rest, body = (pre ++ c :: rest)%list).
Proof.
  revert body. induction pre as [|a pre IH]; intros [|b body] H; simpl in H.
  - injection H as -> _. auto.
  - injection H as -> ->. right. right. now exists body.
  - injection H as -> H. destruct pre as [|a' pre]; simpl in H.
    + injection H as -> _. auto.
    + injection H as _ H. destruct pre; discriminate.
  - injection H as -> H. destruct (IH _ H) as [[-> ->]|[[-> ->]|[rest ->]]]; auto.
    right. right. now exists rest.
Qed.

(** X8. A render call that raises has written no file, with one exception:
    when it is [plt.close] that raises, the save before it has gone through.
    In every other failing call a save, if reached at all, is the call that
    raised. *)
Theorem failed_render_and_the_file (env : Env) (self : Plot) (title : string)
    (show : bool) (w : World) (e : exn) :
  fst (plot env self title show w) = Err e ->
  let issued := new_calls w (snd (plot env self title show w)) in
  (e <> Raised PltClose ->
   forall p, In (PltSavefig p) issued ->
             e = Raised (PltSavefig p) /\ render_ok env (PltSavefig p) = false) /\
  (e = Raised PltClose ->
   In (PltSavefig (_output_path self)) issued /\
   render_ok env (PltSavefig (_output_path self)) = true).
Proof.
  cbv zeta. rewrite plot_unfold.
  destruct (_img_extent self) as [[[ll_x ur_x] ll_y] ur_y] eqn:He.
  destruct (Qeq_bool (ur_y - ll_y) 0).
  - simpl. intros [= <-]. split; [|discriminate].
    intros _ p. unfold new_calls. simpl. rewrite skipn_all. contradiction.
  - set (fw := 8 * (ur_x - ll_x) / (ur_y - ll_y)).
    rewrite (@new_calls_app w _ _ (run_calls_trace env _ w)).
    intro Herr. apply run_calls_err in Herr.
    destruct Herr as (pre & c & post & Hcs & Hpre & Hc & -> & Hatt).
    rewrite Hatt.
    destruct (script_shape env self title show fw)
      as (Hshape & Hshow & Hsave & Hclose & _).
    rewrite Hshape in Hcs. rewrite app_assoc in Hcs.
    set (body := ((plot_head env self fw ++ [SetTitle title])
                    ++ (if show then [PltShow] else []))%list) in Hcs.
    assert (Hbody : forall x, In x body ->
                      x <> PltClose /\ forall p, x <> PltSavefig p).
    { intros x Hx. apply in_app_or in Hx. destruct Hx as [Hx|Hx].
      - split; [intros ->; contradiction|intros p ->; now apply (Hsave p)].
      - destruct show; [|contradiction].
        destruct Hx as [<-|[]]. split; [|intro]; discriminate. }
    symmetry in Hcs. apply stop_before_last_two in Hcs.
    destruct Hcs as [[-> ->]|[[-> ->]|[rest Hrest]]].
    + split; [intro Hn; now elim Hn|]. intros _. split.
      * apply in_or_app. left. apply in_or_app. right. now left.
      * rewrite forallb_app in Hpre. apply andb_true_iff in Hpre.
        destruct Hpre as [_ Hs]. simpl in Hs. now rewrite andb_true_r in Hs.
    + split; [|discriminate]. intros _ p Hin.
      apply in_app_or in Hin. destruct Hin as [Hin|[<-|[]]].
      * now destruct (Hbody _ Hin) as [_ Hn]; elim (Hn p).
      * auto.
    + assert (Hsub : forall x, In x (pre ++ [c]) -> In x body).
      { intros x Hx. rewrite Hrest. apply in_app_or in Hx.
        apply in_or_app. destruct Hx as [Hx|[<-|[]]]; [now left|right; now left]. }
      split.
      * intros _ p Hin. apply Hsub in Hin.
        now destruct (Hbody _ Hin) as [_ Hn]; elim (Hn p).
      * intros [= ->]. exfalso.
        assert (Hin : In PltClose body)
          by (apply Hsub; apply in_or_app; right; now left).
        now destruct (Hbody _ Hin) as [Hn _].
Qed.

Lemma failed_render_and_the_file_witness :
  let issued :=
    new_calls empty_world (snd (plot readonly_env sample_plot "" false empty_world)) in
  (Raised (PltSavefig "plots/276.png") <> Raised PltClose ->
   forall p, In (PltSavefig p) issued ->
             Raised (PltSavefig "plots/276.png") = Raised (PltSavefig p) /\
             render_ok readonly_env (PltSavefig p) = false) /\
  (Raised (PltSavefig "plots/276.png") = Raised PltClose ->
   In (PltSavefig (_output_path sample_plot)) issued /\
   render_ok readonly_env (PltSavefig (_output_path sample_plot)) = true).
Proof.
  apply (@failed_render_and_the_file readonly_env sample_plot "" false empty_world).
  reflexivity.
Defined.

(** ** Geometry *)

(** X10. With a padding factor that is not negative and an extent whose
    maxima are not below its minima, [_add_padding] makes one call, setting
    an extent that contains the image extent, keeps its centre and is wider
    and higher by the factor [1 + 2 * padding]. *)
Theorem padding_grows_around_centre (env : Env) (self : Plot) (padding : Q)
    (w : World) (ll_x ur_x ll_y ur_y : Q) :
  _img_extent self = (ll_x, ur_x, ll_y, ur_y) ->
  0 <= padding ->
  extent_ordered (_img_extent self) ->
  exists a b c d,
    new_calls w (snd (_add_padding env self padding w)) = [SetExtent (a, b, c, d)] /\
    (a <= ll_x /\ ur_x <= b /\ c <= ll_y /\ ur_y <= d) /\
    (a + b == ll_x + ur_x /\ c + d == ll_y + ur_y) /\
    (b - a == (1 + 2 * padding) * (ur_x - ll_x) /\
     d - c == (1 + 2 * padding) * (ur_y - ll_y)).
Proof.
  intros He Hp Hord. rewrite He in Hord. destruct Hord as [Hx Hy].
  unfold _add_padding. rewrite He.
  eexists. eexists. eexists. eexists.
  split; [apply new_calls_app; apply render_trace|].
  assert (Hdx : 0 <= (ur_x - ll_x) * padding)
    by (apply Qmult_le_0_compat; [lra|exact Hp]).
  assert (Hdy : 0 <= (ur_y - ll_y) * padding)
    by (apply Qmult_le_0_compat; [lra|exact Hp]).
  repeat split; try lra; ring.
Qed.

Lemma padding_grows_around_centre_witness :
  exists a b c d,
    new_calls empty_world
      (snd (_add_padding sample_env sample_plot (1 # 4) empty_world)) =
      [SetExtent (a, b, c, d)] /\
    (a <= 0 /\ 0 + Py.float_of_nat 4 * 1 <= b /\
     c <= 0 /\ 0 + Py.float_of_nat 4 * 1 <= d) /\
    (a + b == 0 + (0 + Py.float_of_nat 4 * 1) /\
     c + d == 0 + (0 + Py.float_of_nat 4 * 1)) /\
    (b - a == (1 + 2 * (1 # 4)) * (0 + Py.float_of_nat 4 * 1 - 0) /\
     d - c == (1 + 2 * (1 # 4)) * (0 + Py.float_of_nat 4 * 1 - 0)).
Proof.
  apply (@padding_grows_around_centre sample_env sample_plot (1 # 4) empty_world
           0 (0 + Py.float_of_nat 4 * 1) 0 (0 + Py.float_of_nat 4 * 1)).
  - reflexivity.
  - vm_compute. discriminate.
  - split; vm_compute; discriminate.
Defined.

(** X11. When [get_position] returns and the plot axes have a height that is
    not negative, [_add_colorbar_axs] asks for the position and then adds
    one axes: it starts 0.025 to the right of the plot axes, so the two do
    not overlap, is 0.025 wide, takes 80% of the plot axes' height and is
    centred on them vertically, so it stays within their vertical span.
    When [get_position] raises, no axes is added. *)
Theorem colorbar_axes_geometry (env : Env) (w : World) :
  0 <= height (axes_position env) ->
  let pos := axes_position env in
  let issued := new_calls w (snd (_add_colorbar_axs env w)) in
  (render_ok env GetPosition = true ->
   exists px py cw ch,
     issued = [GetPosition; FigAddAxes (px, py, cw, ch)] /\
     px == x0 pos + width pos + 0.025 /\
     x0 pos + width pos < px /\
     cw == 0.025 /\
     ch == 0.8 * height pos /\
     py + ch / 2 == y0 pos + height pos / 2 /\
     y0 pos <= py /\ py + ch <= y0 pos + height pos) /\
  (render_ok env GetPosition = false ->
   issued = [GetPosition] /\
   fst (_add_colorbar_axs env w) = Err (Raised GetPosition)).
Proof.
  intros Hh. cbv zeta. unfold _add_colorbar_axs, bind, render. split.
  - intros ->. eexists. eexists. eexists. eexists.
    split.
    + apply new_calls_app.
      destruct (render_ok env (FigAddAxes _)); simpl; now rewrite <- app_assoc.
    + repeat split; try lra; try reflexivity; field.
  - intros ->. split; [|reflexivity].
    apply new_calls_app. reflexivity.
Qed.

Lemma colorbar_axes_geometry_witness :
  let pos := axes_position sample_env in
  let issued := new_calls empty_world (snd (_add_colorbar_axs sample_env empty_world)) in
  (render_ok sample_env GetPosition = true ->
   exists px py cw ch,
     issued = [GetPosition; FigAddAxes (px, py, cw, ch)] /\
     px == x0 pos + width pos + 0.025 /\
     x0 pos + width pos < px /\
     cw == 0.025 /\
     ch == 0.8 * height pos /\
     py + ch / 2 == y0 pos + height pos / 2 /\
     y0 pos <= py /\ py + ch <= y0 pos + height pos) /\
  (render_ok sample_env GetPosition = false ->
   issued = [GetPosition] /\
   fst (_add_colorbar_axs sample_env empty_world) = Err (Raised GetPosition)).
Proof.
  apply (@colorbar_axes_geometry sample_env empty_world).
  vm_compute. discriminate.
Defined.

(** ** The example run *)

Lemma init_trace (env : Env) (country_id : Z) (folder : string) (w : World) :
  let w' := snd (__init__ env country_id folder w) in
  trace w' = (trace w ++ new_calls w w')%list /\
  forall c, In c (new_calls w w') ->
    exists last,
      Py.last_char folder = Some last /\
      (c = OsPathExists (folder_used folder last) \/
       c = OsMkdir (folder_used folder last) \/
       c = PopulationInit country_id).
Proof.
  cbv zeta. rewrite init_unfold.
  destruct (Py.last_char folder) as [last|] eqn:Hlast.
  2:{ simpl. unfold new_calls. rewrite skipn_all, app_nil_r.
      split; [reflexivity|contradiction]. }
  cbv zeta. set (nf := folder_used folder last).
  assert (Hgen : forall w1 l,
             trace w1 = (trace w ++ l)%list ->
             (forall c, In c l ->
                c = OsPathExists nf \/ c = OsMkdir nf \/ c = PopulationInit country_id) ->
             trace w1 = (trace w ++ new_calls w w1)%list /\
             forall c, In c (new_calls w w1) ->
               exists last0,
                 Some last = Some last0 /\
                 (c = OsPathExists (folder_used folder last0) \/
                  c = OsMkdir (folder_used folder last0) \/
                  c = PopulationInit country_id)).
  { intros w1 l Ht Hl. rewrite (@new_calls_app _ _ _ Ht). split; [exact Ht|].
    intros c Hc. exists last. split; [reflexivity|]. now apply Hl. }
  destruct (existsb (String.eqb nf) (dirs w)); [|destruct (mkdir_ok env nf)].
  - apply (Hgen _ [OsPathExists nf; PopulationInit country_id]).
    + rewrite init_after_folder_trace. simpl. now rewrite <- app_assoc.
    + simpl. intuition.
  - apply (Hgen _ [OsPathExists nf; OsMkdir nf; PopulationInit country_id]).
    + rewrite init_after_folder_trace. simpl. now rewrite <- !app_assoc.
    + simpl. intuition.
  - apply (Hgen _ [OsPathExists nf; OsMkdir nf]).
    + simpl. now rewrite <- app_assoc.
    + simpl. intuition.
Qed.

(** X12. Whatever the outside world answers, [main] works in ["./plots/"]
    only, loads country 276 only, never shows the figure, sets the empty
    title and saves nowhere but to ["./plots/276.png"]; when it returns, the
    image has been saved there. *)
Theorem main_stays_in_default_folder (env : Env) (w : World) :
  let w' := snd (main env w) in
  (forall c, In c (new_calls w w') ->
     match c with
     | OsPathExists p | OsMkdir p => p = "./plots/"
     | PopulationInit cid => cid = 276%Z
     | PltSavefig p => p = "./plots/276.png"
     | SetTitle t => t = ""
     | PltShow => False
     | _ => True
     end) /\
  (fst (main env w) = Ok tt ->
   In (PltSavefig "./plots/276.png") (new_calls w w') /\
   render_ok env (PltSavefig "./plots/276.png") = true).
Proof.
  cbv zeta. unfold main, bind.
  destruct (init_trace env 276 default_plot_folder w) as [Ht1 Hc1].
  assert (Hinit : forall c,
             In c (new_calls w (snd (__init__ env 276 default_plot_folder w))) ->
             c = OsPathExists "./plots/" \/ c = OsMkdir "./plots/" \/
             c = PopulationInit 276).
  { intros c Hc. destruct (Hc1 c Hc) as (last & Hlast & H).
    simpl in Hlast. injection Hlast as <-. exact H. }
  destruct (__init__ env 276 default_plot_folder w) as [[self|e] w1] eqn:Hi;
    simpl in Ht1, Hinit |- *.
  - apply init_ok_inv in Hi.
    destruct Hi as (last & pop & cmap & Hlast & _ & _ & ->).
    simpl in Hlast. injection Hlast as <-.
    set (self := built 276 (folder_used default_plot_folder "/") pop cmap).
    destruct (plot_trace env self "" false w1) as [Ht2 _].
    assert (Hall : new_calls w (snd (plot env self "" false w1)) =
                   (new_calls w w1
                      ++ new_calls w1 (snd (plot env self "" false w1)))%list).
    { apply new_calls_app. rewrite Ht2, Ht1. now rewrite <- app_assoc. }
    rewrite Hall. split.
    + intros c Hc. apply in_app_or in Hc. destruct Hc as [Hc|Hc].
      * destruct (Hinit c Hc) as [ -> | [ -> | -> ] ]; reflexivity.
      * apply plot_calls_incl in Hc. destruct Hc as [fw Hc].
        apply script_calls_only_plotting in Hc.
        destruct c; try exact Hc; try exact I; try contradiction.
        discriminate Hc.
    + intro Hok. rewrite plot_unfold in Hok |- *.
      destruct (_img_extent self) as [[[ll_x ur_x] ll_y] ur_y].
      destruct (Qeq_bool (ur_y - ll_y) 0); [discriminate|].
      apply run_calls_ok in Hok.
      rewrite (@new_calls_app w1 _ _ (run_calls_trace env _ w1)).
      rewrite (attempted_all env _ Hok).
      assert (Hin : In (PltSavefig "./plots/276.png")
                       (plot_head env self (8 * (ur_x - ll_x) / (ur_y - ll_y))
                        ++ plot_tail self "" false)).
      { apply in_or_app. right. simpl. auto. }
      split.
      * apply in_or_app. right. exact Hin.
      * exact (proj1 (forallb_forall _ _) Hok _ Hin).
  - split; [|discriminate].
    intros c Hc. destruct (Hinit c Hc) as [ -> | [ -> | -> ] ]; reflexivity.
Qed.

(** ** Order of the plotting calls *)

Lemma attempted_prefix (env : Env) (cs : list call) :
  exists rest, cs = (attempted env cs ++ rest)%list.
Proof.
  induction cs as [|c cs [rest IH]]; simpl; [now exists []|].
  destruct (render_ok env c).
  - exists rest. simpl. now rewrite <- IH.
  - now exists cs.
Qed.

(** X13. The plotting calls come in one fixed order.  Whatever [plot] has
    logged when it stops is an initial segment of one sequence: figure,
    axes, margins, border feature, coastlines, padded extent, raster
    overlay, colour bar axes, colour bar and its label, title, the display
    if requested, save, close.  So the overlay is never drawn before the
    extent is set, and nothing is saved before the title is set. *)
Theorem plot_calls_in_source_order (env : Env) (self : Plot) (title : string)
    (show : bool) (w : World) :
  exists fig_width rest,
    (plot_head env self fig_width ++ plot_tail self title show =
       new_calls w (snd (plot env self title show w)) ++ rest)%list /\
    (forall d vmin vmax e c later,
        new_calls w (snd (plot env self title show w)) =
          (later ++ [Imshow d vmin vmax e c])%list ->
        exists sz ext,
          later = [PltFigure sz; PltAxes; PltSubplotsAdjust 0.85 0.05 0.05 0.95;
                   NaturalEarthFeature "cultural" "admin_0_countries" "50m";
                   AddFeature 2 0.5; Coastlines "50m" 1.5 3; SetExtent ext]).
Proof.
  rewrite plot_unfold.
  destruct (_img_extent self) as [[[ll_x ur_x] ll_y] ur_y] eqn:He.
  destruct (Qeq_bool (ur_y - ll_y) 0).
  - exists 0. eexists. simpl. unfold new_calls. rewrite skipn_all. simpl.
    split; [reflexivity|]. intros d vmin vmax e c later H.
    destruct later; discriminate.
  - set (fw := 8 * (ur_x - ll_x) / (ur_y - ll_y)).
    rewrite (@new_calls_app w _ _ (run_calls_trace env _ w)).
    destruct (attempted_prefix env (plot_head env self fw ++ plot_tail self title show))
      as [rest Hrest].
    exists fw, rest. split; [exact Hrest|].
    intros d vmin vmax e c later H. rewrite H in Hrest.
    unfold plot_head, plot_tail in Hrest. rewrite He in Hrest.
    rewrite <- app_assoc in Hrest. simpl in Hrest.
    do 7 (destruct later as [|? later]; [discriminate|];
          injection Hrest as <- Hrest).
    destruct later as [|x later]; [eexists; eexists; reflexivity|].
    exfalso. simpl in Hrest. injection Hrest as <- Hrest.
    destruct show; simpl in Hrest;
      repeat (destruct later as [|? later]; [discriminate|];
              simpl in Hrest; injection Hrest as <- Hrest);
      destruct later; discriminate.
Qed.
